(** * B2B Commerce front-end (frontend/src/App.js)

    A shallow embedding of the React application in [App.js] and of the
    fragment of the JavaScript semantics it relies on, followed by the
    properties of the role-gated RFQ workflow that the user interface
    enforces (or fails to enforce).

    Layout:
    - [JS]      numbers, strings, values: the language semantics used by the
                source ([parseInt], [parseFloat], [>], [&&], [||], [===],
                property access, [JSON.stringify]);
    - [Browser] the host: [localStorage], [fetch], [alert], [console.error];
    - [App]     the source, definition by definition;
    - the theorems. *)

From Stdlib Require Import ZArith NArith String Ascii List SpecFloat.
From Stdlib Require Import DecimalString DecimalPos DecimalN.
From stdpp Require Import base option list strings gmap.
Import ListNotations.

Set Warnings "-register-all".
Local Open Scope string_scope.

(* ===================================================================== *)
(** * The JavaScript fragment                                             *)
(* ===================================================================== *)

Module JS.

(** ** Numbers

    A JavaScript Number is an IEEE 754 binary64 value.  We use the Standard
    Library's specification of binary floating point, [spec_float], at
    precision 53 and maximal exponent 1024; all roundings are to nearest,
    ties to even, as the language prescribes. *)

Abbreviation Number := spec_float.

Definition prec : Z := 53.
Definition emax : Z := 1024.

Definition NaN : Number := S754_nan.
Definition Infinity (negative : bool) : Number := S754_infinity negative.

(** The Number for a mathematical integer. *)
Definition Number_of_Z (z : Z) : Number := binary_normalize prec emax z 0 false.

(** The Number for the decimal [±m·10^e]: the nearest binary64 value. *)
Definition Number_of_decimal (negative : bool) (m : N) (e : Z) : Number :=
  match m with
  | N0 => S754_zero negative
  | Npos p =>
      if (0 <=? e)%Z
      then binary_round prec emax negative (p * Z.to_pos (10 ^ e)) 0
      else
        let '(mz, ez, lz) :=
          SFdiv_core_binary prec emax (Zpos p) 0 (10 ^ (- e)) 0 in
        binary_round_aux prec emax negative mz ez lz
  end.

(** [x < y] on Numbers; false when either side is NaN. *)
Definition Number_lt (x y : Number) : bool := SFltb x y.

(** [+0], [-0] and [NaN] are the falsy Numbers. *)
Definition Number_truthy (n : Number) : bool :=
  match n with
  | S754_zero _ | S754_nan => false
  | _ => true
  end.

Definition Number_finite (n : Number) : bool :=
  match n with
  | S754_nan | S754_infinity _ => false
  | _ => true
  end.

(** ** Strings

    A string is a sequence of code units; the model covers code units up to
    U+00FF (one [ascii] each).  In that range the language's WhiteSpace and
    LineTerminator code points are TAB, LF, VT, FF, CR, SP and NBSP. *)

Definition isWhiteSpace (c : ascii) : bool :=
  bool_decide (N_of_ascii c ∈ [9; 10; 11; 12; 13; 32; 160]%N).

Fixpoint trimStart (s : list ascii) : list ascii :=
  match s with
  | c :: s' => if isWhiteSpace c then trimStart s' else s
  | [] => []
  end.

Definition trimEnd (s : list ascii) : list ascii := rev (trimStart (rev s)).

Definition trim (s : list ascii) : list ascii := trimEnd (trimStart s).

(** The value of a character as a digit: [0-9], then [a-z] or [A-Z] for
    10 to 35. *)
Definition digit_of (c : ascii) : option N :=
  let n := N_of_ascii c in
  if ((48 <=? n) && (n <=? 57))%N then Some (n - 48)%N
  else if ((97 <=? n) && (n <=? 122))%N then Some (n - 87)%N
  else if ((65 <=? n) && (n <=? 90))%N then Some (n - 55)%N
  else None.

Definition digit_in (radix : N) (c : ascii) : option N :=
  match digit_of c with
  | Some d => if (d <? radix)%N then Some d else None
  | None => None
  end.

(** The longest prefix of radix-[radix] digits, and what follows it. *)
Fixpoint span_digits (radix : N) (s : list ascii) : list N * list ascii :=
  match s with
  | c :: s' =>
      match digit_in radix c with
      | Some d => let '(ds, rest) := span_digits radix s' in (d :: ds, rest)
      | None => ([], s)
      end
  | [] => ([], [])
  end.

Definition digits_value (radix : N) (ds : list N) : N :=
  fold_left (fun acc d => (acc * radix + d)%N) ds 0%N.

(** An optional sign: [true] for [-]. *)
Definition strip_sign (s : list ascii) : bool * list ascii :=
  match s with
  | "-"%char :: s' => (true, s')
  | "+"%char :: s' => (false, s')
  | _ => (false, s)
  end.

Definition is_char (c : ascii) (lower upper : ascii) : bool :=
  bool_decide (c = lower) || bool_decide (c = upper).

(** ExponentPart, when one is present: [e] or [E], an optional sign and at
    least one digit.  Without a complete exponent part nothing is consumed. *)
Definition parse_ExponentPart (s : list ascii) : Z * list ascii :=
  match s with
  | c :: s1 =>
      if is_char c "e" "E" then
        let '(negative, s2) := strip_sign s1 in
        match span_digits 10 s2 with
        | ([], _) => (0%Z, s)
        | (ds, s3) =>
            let v := Z.of_N (digits_value 10 ds) in
            ((if negative then - v else v)%Z, s3)
        end
      else (0%Z, s)
  | [] => (0%Z, s)
  end.

(** The longest prefix that is a StrUnsignedDecimalLiteral other than
    [Infinity], as mantissa and decimal exponent, and what follows it:
    [digits . digits? exp?], [. digits exp?] or [digits exp?]. *)
Definition parse_decimal_digits (s : list ascii) : option (N * Z * list ascii) :=
  let '(ip, s1) := span_digits 10 s in
  match s1 with
  | "."%char :: s2 =>
      let '(fp, s3) := span_digits 10 s2 in
      match ip, fp with
      | [], [] => None
      | _, _ =>
          let '(e, s4) := parse_ExponentPart s3 in
          Some (digits_value 10 (ip ++ fp), (e - Z.of_nat (length fp))%Z, s4)
      end
  | _ =>
      match ip with
      | [] => None
      | _ =>
          let '(e, s2) := parse_ExponentPart s1 in
          Some (digits_value 10 ip, e, s2)
      end
  end.

Fixpoint strip_prefix (p s : list ascii) : option (list ascii) :=
  match p, s with
  | [], _ => Some s
  | a :: p', b :: s' => if bool_decide (a = b) then strip_prefix p' s' else None
  | _ :: _, [] => None
  end.

(** The longest prefix that is a StrDecimalLiteral (sign included), as the
    Number it denotes, and what follows it. *)
Definition parse_StrDecimalLiteral (s : list ascii) : option (Number * list ascii) :=
  let '(negative, s1) := strip_sign s in
  match strip_prefix (list_ascii_of_string "Infinity") s1 with
  | Some rest => Some (Infinity negative, rest)
  | None =>
      match parse_decimal_digits s1 with
      | Some (m, e, rest) => Some (Number_of_decimal negative m e, rest)
      | None => None
      end
  end.

(** NonDecimalIntegerLiteral: [0x], [0o] or [0b] (either case) followed by
    digits of that radix only. *)
Definition parse_NonDecimalIntegerLiteral (s : list ascii) : option Number :=
  match s with
  | "0"%char :: c :: ds =>
      let radix :=
        if is_char c "x" "X" then Some 16%N
        else if is_char c "o" "O" then Some 8%N
        else if is_char c "b" "B" then Some 2%N
        else None in
      match radix with
      | Some r =>
          match span_digits r ds with
          | ((_ :: _) as vs, []) => Some (Number_of_Z (Z.of_N (digits_value r vs)))
          | _ => None
          end
      | None => None
      end
  | _ => None
  end.

(** StringToNumber: the conversion a string undergoes in a numeric context
    (here, in [quantity > 0]). *)
Definition StringToNumber (str : string) : Number :=
  match trim (list_ascii_of_string str) with
  | [] => S754_zero false
  | t =>
      match parse_NonDecimalIntegerLiteral t with
      | Some n => n
      | None =>
          match parse_StrDecimalLiteral t with
          | Some (n, []) => n
          | _ => NaN
          end
      end
  end.

(** [parseInt(string)] with no radix argument.  (The integer read is
    rounded to the nearest Number; the language lets an implementation
    approximate decimal digits after the twentieth.) *)
Definition parseInt (str : string) : Number :=
  let s := trimStart (list_ascii_of_string str) in
  let '(negative, s1) := strip_sign s in
  let '(radix, s2) :=
    match s1 with
    | "0"%char :: c :: rest => if is_char c "x" "X" then (16%N, rest) else (10%N, s1)
    | _ => (10%N, s1)
    end in
  match span_digits radix s2 with
  | ([], _) => NaN
  | (ds, _) =>
      match digits_value radix ds with
      | N0 => S754_zero negative
      | Npos p => binary_round prec emax negative p 0
      end
  end.

(** [parseFloat(string)]. *)
Definition parseFloat (str : string) : Number :=
  match parse_StrDecimalLiteral (trimStart (list_ascii_of_string str)) with
  | Some (n, _) => n
  | None => NaN
  end.

(** [str > 0] for a string [str]: both sides go to Numbers, then [0 < n]. *)
Definition String_gt_zero (str : string) : bool :=
  Number_lt (S754_zero false) (StringToNumber str).

(** ** Values

    The values that reach the program: JSON data received from the server,
    strings typed by the user, and [undefined].  Objects are finite maps from
    property names to values. *)

Inductive Value :=
| VUndefined
| VNull
| VBool (b : bool)
| VNum (n : Number)
| VStr (s : string)
| VArr (elems : list Value)
| VObj (fields : gmap string Value).

Definition ToBoolean (v : Value) : bool :=
  match v with
  | VUndefined | VNull => false
  | VBool b => b
  | VNum n => Number_truthy n
  | VStr s => negb (String.eqb s "")
  | VArr _ | VObj _ => true
  end.

(** Property read [v.k], for the data property names the source reads
    ([id], [role], [status], [name], ...; none of them is a property of a
    built-in prototype).  [None] stands for the TypeError raised when [v] is
    [null] or [undefined]. *)
Definition Get (v : Value) (k : string) : option Value :=
  match v with
  | VUndefined | VNull => None
  | VObj fields => Some (default VUndefined (fields !! k))
  | _ => Some VUndefined
  end.

(** Optional chaining [v?.k]. *)
Definition GetOptional (v : Value) (k : string) : option Value :=
  match v with
  | VUndefined | VNull => Some VUndefined
  | _ => Get v k
  end.

(** [a || b]. *)
Definition LogicalOr (a b : Value) : Value := if ToBoolean a then a else b.

(** [a === b].  Arrays and objects are compared by identity; the operands
    the source compares come from different response bodies, or one of them
    is a literal, so two of them are never the same object. *)
Definition StrictEquals (a b : Value) : bool :=
  match a, b with
  | VUndefined, VUndefined | VNull, VNull => true
  | VBool x, VBool y => Bool.eqb x y
  | VNum x, VNum y => SFeqb x y
  | VStr x, VStr y => String.eqb x y
  | _, _ => false
  end.

(** [Object.is(a, b)], by which React decides whether a state value has
    changed: as [===], except that [NaN] is itself and [+0] is not [-0]. *)
Definition SameValue (a b : Value) : bool :=
  match a, b with
  | VUndefined, VUndefined | VNull, VNull => true
  | VBool x, VBool y => Bool.eqb x y
  | VNum x, VNum y =>
      match x, y with
      | S754_zero s, S754_zero s' | S754_infinity s, S754_infinity s' => Bool.eqb s s'
      | S754_nan, S754_nan => true
      | S754_finite s m e, S754_finite s' m' e' =>
          Bool.eqb s s' && Pos.eqb m m' && Z.eqb e e'
      | _, _ => false
      end
  | VStr x, VStr y => String.eqb x y
  | _, _ => false
  end.

(** [roles.includes(v)] for an array of string literals. *)
Definition includes (roles : list string) (v : Value) : bool :=
  existsb (fun r => StrictEquals (VStr r) v) roles.

(** [JSON.stringify(v)].  The text produced is represented by the JSON
    document it denotes; [None] is the [undefined] returned for [undefined].
    Non-finite numbers become [null], a zero is written [0] whatever its
    sign, [undefined] array elements become [null], and [undefined]
    properties are left out. *)
Fixpoint JSON_stringify (v : Value) : option Value :=
  match v with
  | VUndefined => None
  | VNum n =>
      Some match n with
           | S754_zero _ => VNum (S754_zero false)
           | S754_finite _ _ _ => v
           | S754_infinity _ | S754_nan => VNull
           end
  | VArr elems => Some (VArr (map (fun x => default VNull (JSON_stringify x)) elems))
  | VObj fields => Some (VObj (omap JSON_stringify fields))
  | _ => Some v
  end.

End JS.

(* ===================================================================== *)
(** * The host environment                                                *)
(* ===================================================================== *)

Module Browser.
Import JS.

(** An error value: what [throw new Error(..)] creates, and what [fetch] and
    [response.json()] reject with. *)
Record Error := { name : string; message : string }.

(** What the program does not fix itself: the build-time backend address,
    the engine's rendering of numbers and dates as text, and the error the
    engine raises on reading a property of [null]. *)
Record Host := {
  BACKEND_URL : string;
  Number_toString : Number -> string;
  toLocaleDateString : Value -> string;
  TypeError : Error
}.

(** [localStorage]. *)
Abbreviation Storage := (gmap string string).

Definition getItem (storage : Storage) (key : string) : option string := storage !! key.
Definition setItem (key value : string) (storage : Storage) : Storage := <[key := value]> storage.
Definition removeItem (key : string) (storage : Storage) : Storage := delete key storage.

(** What [fetch(url, init)] is called with.  The body is the JSON document
    written by [JSON.stringify]. *)
Record Request := {
  url : string;
  method : string;
  headers : gmap string string;
  body : option Value
}.

(** What the network answers: the promise rejects, or resolves to a response
    whose [json()] in turn rejects or yields the parsed body. *)
Record Response := {
  ok : bool;
  statusText : string;
  json : Error + Value
}.

Inductive FetchResult :=
| Rejected (reason : Error)
| Resolved (response : Response).

(** What [prompt(..)] returns: the text entered, or [null] ([None]) when
    the dialog is dismissed.  An answer is truthy when it is a non-empty
    string. *)
Definition Answer := option string.

Definition Answer_truthy (a : Answer) : bool :=
  match a with
  | Some s => negb (String.eqb s "")
  | None => false
  end.

(** The network, as seen by one handler run. *)
Definition Server := Request -> FetchResult.

(** What a handler does to the outside world, in order. *)
Inductive Effect :=
| Fetch (request : Request)
| Alert (text : string)
| ConsoleError (e : Error)
| Reload.

(** Computations that act on the outside world and either throw or return:
    the trace of effects so far, and the outcome. *)
Definition Cmd (A : Type) : Type := list Effect * (Error + A).

Definition ret {A} (a : A) : Cmd A := ([], inr a).
Definition throw {A} (e : Error) : Cmd A := ([], inl e).
Definition emit (eff : Effect) : Cmd unit := ([eff], inr tt).

Definition bind {A B} (c : Cmd A) (k : A -> Cmd B) : Cmd B :=
  match c with
  | (t, inl e) => (t, inl e)
  | (t, inr a) => let '(t', r) := k a in ((t ++ t')%list, r)
  end.

(** [try { c } catch (error) { handler(error) }]. *)
Definition try_catch {A} (c : Cmd A) (handler : Error -> Cmd A) : Cmd A :=
  match c with
  | (t, inl e) => let '(t', r) := handler e in ((t ++ t')%list, r)
  | (t, inr a) => (t, inr a)
  end.

#[export] Instance Cmd_ret : MRet Cmd := @ret.
#[export] Instance Cmd_bind : MBind Cmd := fun A B k c => bind c k.

Definition trace {A} (c : Cmd A) : list Effect := fst c.
Definition outcome {A} (c : Cmd A) : Error + A := snd c.


(** How a request fails, when it does: the network rejects it, the response
    is not [ok] (the error [apiCall] then creates), or its body cannot be
    read. *)
Definition failure (server : Server) (request : Request) : option Error :=
  match server request with
  | Rejected e => Some e
  | Resolved response =>
      if ok response then
        match json response with
        | inl e => Some e
        | inr _ => None
        end
      else Some {| name := "Error";
                   message := "API call failed: " ++ statusText response |}
  end.

End Browser.


(* ===================================================================== *)
(** * The application                                                     *)
(* ===================================================================== *)

Module App.
Import JS Browser.

(** ** What the views are made of *)

(** The state of the registration form ([formData]). *)
Record FormData := {
  email : string;
  password : string;
  company_name : string;
  contact_person : string;
  phone : string;
  role : string
}.

(** What the event handlers of the views do when they run. *)
Inductive Action :=
| Logout                                         (* [logout] *)
| LoginSubmit (email password : string)          (* LoginForm's [handleSubmit] *)
| RegisterSubmit (formData : FormData)           (* RegisterForm's [handleSubmit] *)
| SetEmail (value : string)
| SetPassword (value : string)
| SetFormData (formData : FormData)
| ReloadPage                                     (* [window.location.reload()] *)
| CreateRFQ (productId : Value)                  (* [createRFQ(product.id)] *)
| SubmitQuote (rfqId : Value)                    (* [submitQuote(rfq.id)] *)
| SetCurrentView (key : string)
| SetShowRegister (show : bool).

(** The element tree a component returns.  Styling ([className]) and the
    [required] and [key] attributes are left out; every handler is kept.
    Returning a tree is not yet showing it: see [displays] below. *)
Inductive Element :=
| Text (s : string)                              (* literal text *)
| Expr (v : Value)                               (* [{expression}] *)
| Fragment (children : list Element)             (* [<>...</>] *)
| El (tag : string) (children : list Element)    (* div, h1, p, span, ul, ... *)
| Button (onClick : Action) (children : list Element)
| SubmitButton (disabled : bool) (children : list Element)
| Input (type placeholder value : string) (onChange : string -> Action)
| Select (value : string) (options : list (string * string)) (onChange : string -> Action)
| Form (onSubmit : Action) (children : list Element).

(** [{cond && (<element/>)}]: the element when [cond] is truthy, otherwise
    the value of [cond] itself (which renders as nothing or as text). *)
Definition And (cond : Value) (e : Element) : Element :=
  if ToBoolean cond then e else Expr cond.

(** The actions a user can trigger on a rendered tree: clicking a button,
    submitting a form, typing into an input, choosing one of the options a
    select offers. *)
Inductive fires : Element -> Action -> Prop :=
| fires_click a kids : fires (Button a kids) a
| fires_submit a kids : fires (Form a kids) a
| fires_input ty ph v f typed : fires (Input ty ph v f) (f typed)
| fires_select v opts f chosen :
    chosen ∈ opts.*1 -> fires (Select v opts f) (f chosen)
| fires_in_Fragment kids kid a : kid ∈ kids -> fires kid a -> fires (Fragment kids) a
| fires_in_El tag kids kid a : kid ∈ kids -> fires kid a -> fires (El tag kids) a
| fires_in_Button b kids kid a : kid ∈ kids -> fires kid a -> fires (Button b kids) a
| fires_in_SubmitButton d kids kid a :
    kid ∈ kids -> fires kid a -> fires (SubmitButton d kids) a
| fires_in_Form b kids kid a : kid ∈ kids -> fires kid a -> fires (Form b kids) a.

(** What React makes of a child given by an expression: a string or a
    number is shown as text, a boolean, [null] or [undefined] shows nothing,
    an array is taken element by element, and a plain object is refused.
    The refusal is an error thrown while rendering; the application has no
    error boundary, so the whole page is then taken down. *)
Fixpoint valid_child (v : Value) : bool :=
  match v with
  | VObj _ => false
  | VArr elems => forallb valid_child elems
  | _ => true
  end.

(** [displays tree]: React can put the tree a component returned on the
    page, no expression in it being refused. *)
Fixpoint displays (e : Element) : bool :=
  match e with
  | Text _ | Input _ _ _ _ | Select _ _ _ => true
  | Expr v => valid_child v
  | Fragment kids | El _ kids | Button _ kids | SubmitButton _ kids | Form _ kids =>
      forallb displays kids
  end.

(** [arr.map(f)] and [arr.find(pred)] on a value; [None] is the TypeError
    raised when [arr] is not an array or when the callback throws. *)
Definition Array_map {B} (f : Value -> option B) (arr : Value) : option (list B) :=
  match arr with
  | VArr elems => mapM f elems
  | _ => None
  end.

Fixpoint find_in (pred : Value -> option bool) (elems : list Value) : option Value :=
  match elems with
  | [] => Some VUndefined
  | x :: rest =>
      match pred x with
      | Some true => Some x
      | Some false => find_in pred rest
      | None => None
      end
  end.

Definition Array_find (pred : Value -> option bool) (arr : Value) : option Value :=
  match arr with
  | VArr elems => find_in pred elems
  | _ => None
  end.

Section Source.
Variable host : Host.

Definition API : string := BACKEND_URL host ++ "/api".

(** [String(v)], as used by template literals and by [localStorage.setItem]. *)
Fixpoint ToString (v : Value) : string :=
  match v with
  | VUndefined => "undefined"
  | VNull => "null"
  | VBool b => if b then "true" else "false"
  | VNum n => Number_toString host n
  | VStr s => s
  | VArr elems =>
      String.concat ","
        (map (fun x => match x with VUndefined | VNull => "" | _ => ToString x end) elems)
  | VObj _ => "[object Object]"
  end.

(** ** AuthProvider *)

(** The provider's state: [user], [token], [loading], and whether the
    effect that depends on [token] is due (after mounting, and after every
    change of [token]). *)
Record AuthState := {
  user : Value;
  token : Value;
  loading : bool;
  effect_due : bool
}.

Definition setUser (v : Value) (st : AuthState) : AuthState :=
  {| user := v; token := token st; loading := loading st; effect_due := effect_due st |}.

(** [setToken(v)]: a value that is the same as the current one leaves the
    state alone; any other value makes the effect due.  (The values passed
    are [null] and fields of a fresh response body: an array or object
    among them is never the one already held.) *)
Definition setToken (v : Value) (st : AuthState) : AuthState :=
  if SameValue v (token st) then st
  else {| user := user st; token := v; loading := loading st; effect_due := true |}.

Definition setLoading (b : bool) (st : AuthState) : AuthState :=
  {| user := user st; token := token st; loading := b; effect_due := effect_due st |}.

(** The initial state: [useState(null)], [useState(localStorage.getItem('token'))],
    [useState(true)]. *)
Definition AuthProvider_mount (storage : Storage) : AuthState :=
  {| user := VNull;
     token := match getItem storage "token" with Some t => VStr t | None => VNull end;
     loading := true;
     effect_due := true |}.

(** One run of the effect [useEffect(() => {...}, [token])], together with
    the settlement of the [/me] request it starts. *)
Definition AuthProvider_effect (server : Server) (st : AuthState) (storage : Storage)
  : AuthState * Storage * list Effect :=
  let st := {| user := user st; token := token st; loading := loading st;
               effect_due := false |} in
  if ToBoolean (token st) then
    let request :=
      {| url := API ++ "/me"; method := "GET";
         headers := {[ "Authorization" := "Bearer " ++ ToString (token st) ]};
         body := None |} in
    let data := match server request with
                | Rejected e => inl e
                | Resolved res => json res
                end in
    let forget := (setToken VNull st, removeItem "token" storage) in
    let '(st', storage') :=
      match data with
      | inr data =>
          match Get data "id" with
          | Some id => if ToBoolean id then (setUser data st, storage) else forget
          | None => forget              (* TypeError in [.then], handled by [.catch] *)
          end
      | inl _ => forget                 (* [.catch] *)
      end in
    (setLoading false st', storage', [Fetch request])
  else (setLoading false st, storage, []).

(** What [login] and [register] return: [{ success: true }] or
    [{ success: false, error: error.detail }]. *)
Record AuthResult := { success : bool; error : Value }.

Definition login (server : Server) (email password : string)
    (st : AuthState) (storage : Storage) : AuthState * Storage * Cmd AuthResult :=
  let request :=
    {| url := API ++ "/login"; method := "POST";
       headers := {[ "Content-Type" := "application/json" ]};
       body := JSON_stringify
                 (VObj {[ "email" := VStr email; "password" := VStr password ]}) |} in
  let failed e := (st, storage, ([Fetch request], inl e)) in
  match server request with
  | Rejected e => failed e
  | Resolved response =>
      if ok response then
        match json response with
        | inl e => failed e
        | inr data =>
            match Get data "access_token", Get data "user" with
            | Some access_token, Some u =>
                (setUser u (setToken access_token st),
                 setItem "token" (ToString access_token) storage,
                 ([Fetch request], inr {| success := true; error := VUndefined |}))
            | _, _ => failed (TypeError host)
            end
        end
      else
        match json response with
        | inl e => failed e
        | inr error =>
            match Get error "detail" with
            | Some detail =>
                (st, storage,
                 ([Fetch request], inr {| success := false; error := detail |}))
            | None => failed (TypeError host)
            end
        end
  end.

Definition FormData_json (userData : FormData) : Value :=
  VObj {[ "email" := VStr (email userData);
          "password" := VStr (password userData);
          "company_name" := VStr (company_name userData);
          "contact_person" := VStr (contact_person userData);
          "phone" := VStr (phone userData);
          "role" := VStr (role userData) ]}.

Definition register (server : Server) (userData : FormData) : Cmd AuthResult :=
  let request :=
    {| url := API ++ "/register"; method := "POST";
       headers := {[ "Content-Type" := "application/json" ]};
       body := JSON_stringify (FormData_json userData) |} in
  emit (Fetch request);;
  match server request with
  | Rejected e => throw e
  | Resolved response =>
      if ok response then mret {| success := true; error := VUndefined |}
      else
        match json response with
        | inl e => throw e
        | inr data =>
            match Get data "detail" with
            | Some detail => mret {| success := false; error := detail |}
            | None => throw (TypeError host)
            end
        end
  end.


(** ** API helper *)

(** The [options] argument of [apiCall]; the callers pass [method] and
    [body], or nothing. *)
Record Options := {
  opt_method : option string;
  opt_headers : option (gmap string string);
  opt_body : option Value
}.

Definition no_options : Options :=
  {| opt_method := None; opt_headers := None; opt_body := None |}.

Definition apiCall (storage : Storage) (server : Server)
    (endpoint : string) (options : Options) : Cmd Value :=
  let token := getItem storage "token" in
  let defaultHeaders : gmap string string :=
    if Answer_truthy token
    then {[ "Content-Type" := "application/json";
            "Authorization" := "Bearer " ++ default "" token ]}
    else {[ "Content-Type" := "application/json" ]} in
  let request :=
    {| url := API ++ endpoint;
       method := default "GET" (opt_method options);
       headers := match opt_headers options with
                  | Some h => h          (* [...options] comes last *)
                  | None => defaultHeaders
                  end;
       body := opt_body options |} in
  emit (Fetch request);;
  match server request with
  | Rejected e => throw e
  | Resolved response =>
      if negb (ok response)
      then throw {| name := "Error";
                    message := "API call failed: " ++ statusText response |}
      else match json response with
           | inl e => throw e
           | inr data => mret data
           end
  end.

(** ** Components *)

Definition Header (user : Value) : option Element :=
  account ←
    (if ToBoolean user then
       company_name ← Get user "company_name";
       role ← Get user "role";
       Some (El "div"
               [El "span" [Expr company_name; Text " ("; Expr role; Text ")"];
                Button Logout [Text "Logout"]])
     else Some (Expr user));
  Some (El "header" [El "div" [El "h1" [Text "B2B Commerce"]; account]]).

Definition LoginForm (email password : string) (error : Value) (loading : bool)
  : Element :=
  El "div"
    [El "div"
       [El "div" [El "h2" [Text "Sign in to your account"]];
        Form (LoginSubmit email password)
          [El "div"
             [El "div" [Input "email" "Email address" email SetEmail];
              El "div" [Input "password" "Password" password SetPassword]];
           And error (El "div" [Expr error]);
           El "div"
             [SubmitButton loading
                [Expr (VStr (if loading then "Signing in..." else "Sign in"))]]]]].

(** The initial [formData] of the registration form. *)
Definition RegisterForm_initial : FormData :=
  {| email := ""; password := ""; company_name := ""; contact_person := "";
     phone := ""; role := "buyer" |}.

Definition with_email (v : string) (d : FormData) : FormData :=
  {| email := v; password := password d; company_name := company_name d;
     contact_person := contact_person d; phone := phone d; role := role d |}.
Definition with_password (v : string) (d : FormData) : FormData :=
  {| email := email d; password := v; company_name := company_name d;
     contact_person := contact_person d; phone := phone d; role := role d |}.
Definition with_company_name (v : string) (d : FormData) : FormData :=
  {| email := email d; password := password d; company_name := v;
     contact_person := contact_person d; phone := phone d; role := role d |}.
Definition with_contact_person (v : string) (d : FormData) : FormData :=
  {| email := email d; password := password d; company_name := company_name d;
     contact_person := v; phone := phone d; role := role d |}.
Definition with_phone (v : string) (d : FormData) : FormData :=
  {| email := email d; password := password d; company_name := company_name d;
     contact_person := contact_person d; phone := v; role := role d |}.
Definition with_role (v : string) (d : FormData) : FormData :=
  {| email := email d; password := password d; company_name := company_name d;
     contact_person := contact_person d; phone := phone d; role := v |}.

Definition RegisterForm (formData : FormData) (error : Value) (success loading : bool)
  : Element :=
  if success then
    El "div"
      [El "div"
         [El "h2" [Text "Registration Successful!"];
          El "p" [Text "Your account has been created. You can now sign in."];
          Button ReloadPage [Text "Go to Login"]]]
  else
    El "div"
      [El "div"
         [El "div" [El "h2" [Text "Create your account"]];
          Form (RegisterSubmit formData)
            [El "div"
               [Input "email" "Email address" (email formData)
                  (fun v => SetFormData (with_email v formData));
                Input "password" "Password" (password formData)
                  (fun v => SetFormData (with_password v formData));
                Input "text" "Company Name" (company_name formData)
                  (fun v => SetFormData (with_company_name v formData));
                Input "text" "Contact Person" (contact_person formData)
                  (fun v => SetFormData (with_contact_person v formData));
                Input "tel" "Phone Number" (phone formData)
                  (fun v => SetFormData (with_phone v formData));
                Select (role formData)
                  [("buyer", "Buyer"); ("supplier", "Supplier")]
                  (fun v => SetFormData (with_role v formData))];
             And error (El "div" [Expr error]);
             SubmitButton loading
               [Expr (VStr (if loading then "Creating account..."
                            else "Create account"))]]]].

(** The literal [0] of [stats.x || 0]. *)
Definition zero : Value := VNum (S754_zero false).

(** One counter of the dashboard: a titled box showing [value]. *)
Definition stat_card (title : string) (value : Value) : Element :=
  El "div" [El "h3" [Text title]; El "p" [Expr value]].

Definition Dashboard (user stats : Value) (loading : bool) : option Element :=
  if loading then Some (El "div" [Text "Loading dashboard..."])
  else
    contact_person ← Get user "contact_person";
    role ← Get user "role";
    admin ←
      (if StrictEquals role (VStr "admin") then
         total_users ← Get stats "total_users";
         total_products ← Get stats "total_products";
         total_orders ← Get stats "total_orders";
         Some (Fragment
                 [stat_card "Total Users" (LogicalOr total_users zero);
                  stat_card "Total Products" (LogicalOr total_products zero);
                  stat_card "Total Orders" (LogicalOr total_orders zero)])
       else Some (Expr (VBool false)));
    supplier ←
      (if StrictEquals role (VStr "supplier") then
         my_products ← Get stats "my_products";
         my_orders ← Get stats "my_orders";
         pending_rfqs ← Get stats "pending_rfqs";
         Some (Fragment
                 [stat_card "My Products" (LogicalOr my_products zero);
                  stat_card "My Orders" (LogicalOr my_orders zero);
                  stat_card "Pending RFQs" (LogicalOr pending_rfqs zero)])
       else Some (Expr (VBool false)));
    buyer ←
      (if StrictEquals role (VStr "buyer") then
         my_rfqs ← Get stats "my_rfqs";
         my_orders ← Get stats "my_orders";
         Some (Fragment
                 [stat_card "My RFQs" (LogicalOr my_rfqs zero);
                  stat_card "My Orders" (LogicalOr my_orders zero)])
       else Some (Expr (VBool false)));
    Some
      (El "div"
         [El "h1" [Text "Welcome, "; Expr contact_person];
          El "div" [admin; supplier; buyer]]).

(** One product of the catalogue, as [products.map] renders it. *)
Definition ProductCard (user categories product : Value) : option Element :=
  category ←
    Array_find
      (fun c =>
         id ← Get c "id";
         category_id ← Get product "category_id";
         Some (StrictEquals id category_id))
      categories;
  id ← Get product "id";
  name ← Get product "name";
  description ← Get product "description";
  category_name ← GetOptional category "name";
  price ← Get product "price";
  stock_quantity ← Get product "stock_quantity";
  min_order_quantity ← Get product "min_order_quantity";
  role ← Get user "role";
  Some
    (El "div"
       [El "h3" [Expr name];
        El "p" [Expr description];
        El "p" [Text "Category: "; Expr (LogicalOr category_name (VStr "Unknown"))];
        El "p" [Text "$"; Expr price; Text "/unit"];
        El "p" [Text "Stock: "; Expr stock_quantity;
                Text " | Min Order: "; Expr min_order_quantity];
        And (VBool (StrictEquals role (VStr "buyer")))
          (Button (CreateRFQ id) [Text "Request Quote"])]).

Definition ProductList (user products categories : Value) (loading : bool)
  : option Element :=
  if loading then Some (El "div" [Text "Loading products..."])
  else
    cards ← Array_map (ProductCard user categories) products;
    Some (El "div" [El "h1" [Text "Products"]; El "div" cards]).

(** One RFQ, as [rfqs.map] renders it. *)
Definition RFQCard (user products rfq : Value) : option Element :=
  product ←
    Array_find
      (fun p =>
         id ← Get p "id";
         product_id ← Get rfq "product_id";
         Some (StrictEquals id product_id))
      products;
  id ← Get rfq "id";
  product_name ← GetOptional product "name";
  quantity ← Get rfq "quantity";
  expires_at ← Get rfq "expires_at";
  status ← Get rfq "status";
  message ← Get rfq "message";
  role ← Get user "role";
  Some
    (El "div"
       [El "div"
          [El "div"
             [El "h3" [Expr (LogicalOr product_name (VStr "Product Not Found"))];
              El "p" [Text "Quantity: "; Expr quantity];
              El "p" [Text "Expires: ";
                      Expr (VStr (toLocaleDateString host expires_at))]];
           El "span" [Expr status]];
        And message (El "p" [Text "Message: "; Expr message]);
        And (VBool (StrictEquals role (VStr "supplier")
                    && StrictEquals status (VStr "open")))
          (Button (SubmitQuote id) [Text "Submit Quote"])]).

Definition RFQList (user rfqs products : Value) (loading : bool) : option Element :=
  if loading then Some (El "div" [Text "Loading RFQs..."])
  else
    role ← Get user "role";
    cards ← Array_map (RFQCard user products) rfqs;
    Some
      (El "div"
         [El "h1" [Expr (VStr (if StrictEquals role (VStr "buyer")
                               then "My RFQs" else "Available RFQs"))];
          El "div" cards]).

(** *** Navigation *)

Record NavItem := { key : string; label : string; roles : list string }.

Definition navItems : list NavItem :=
  [ {| key := "dashboard"; label := "Dashboard"; roles := ["admin"; "supplier"; "buyer"] |};
    {| key := "products"; label := "Products"; roles := ["admin"; "supplier"; "buyer"] |};
    {| key := "rfqs"; label := "RFQs"; roles := ["supplier"; "buyer"] |};
    {| key := "orders"; label := "Orders"; roles := ["admin"; "supplier"; "buyer"] |} ].

Definition filteredNavItems (user : Value) : option (list NavItem) :=
  role ← Get user "role";
  Some (List.filter (fun item => includes (roles item) role) navItems).

(** The components [renderContent] chooses among. *)
Inductive Component := TheDashboard | TheProductList | TheRFQList.

Definition renderContent (currentView : string) : Component :=
  if String.eqb currentView "dashboard" then TheDashboard
  else if String.eqb currentView "products" then TheProductList
  else if String.eqb currentView "rfqs" then TheRFQList
  else TheDashboard.

(** The hook state of the three content components. *)
Record ContentState := {
  stats : Value; dashboard_loading : bool;
  products : Value; categories : Value; products_loading : bool;
  rfqs : Value; rfq_products : Value; rfqs_loading : bool
}.

Definition render (c : Component) (user : Value) (s : ContentState) : option Element :=
  match c with
  | TheDashboard => Dashboard user (stats s) (dashboard_loading s)
  | TheProductList => ProductList user (products s) (categories s) (products_loading s)
  | TheRFQList => RFQList user (rfqs s) (rfq_products s) (rfqs_loading s)
  end.

Definition Navigation (user : Value) (currentView : string) (s : ContentState)
  : option Element :=
  items ← filteredNavItems user;
  content ← render (renderContent currentView) user s;
  Some
    (El "div"
       [El "nav"
          [El "div"
             [El "h2" [Text "Navigation"];
              El "ul"
                ((fun item =>
                    El "li" [Button (SetCurrentView (key item))
                               [Expr (VStr (label item))]])
                 <$> items)]];
        El "main" [content]]).

(** *** MainApp *)

(** The hook state below [AuthProvider]: MainApp's [showRegister], the two
    forms, Navigation's [currentView] and the content components. *)
Record ViewState := {
  showRegister : bool;
  login_email : string; login_password : string;
  login_error : Value; login_loading : bool;
  formData : FormData; register_error : Value;
  register_success : bool; register_loading : bool;
  currentView : string;
  content : ContentState
}.

Definition MainApp (auth : AuthState) (v : ViewState) : option Element :=
  if loading auth then Some (El "div" [El "div" [Text "Loading..."]])
  else if ToBoolean (user auth) then
    header ← Header (user auth);
    navigation ← Navigation (user auth) (currentView v) (content v);
    Some (El "div" [header; navigation])
  else
    Some
      (El "div"
         [if showRegister v then
            El "div"
              [RegisterForm (formData v) (register_error v)
                 (register_success v) (register_loading v);
               El "div"
                 [Button (SetShowRegister false)
                    [Text "Already have an account? Sign in"]]]
          else
            El "div"
              [LoginForm (login_email v) (login_password v)
                 (login_error v) (login_loading v);
               El "div"
                 [Button (SetShowRegister true)
                    [Text "Don't have an account? Register"]]]]).

(** ** Data loading and commands *)

(** Dashboard's effect: [apiCall('/dashboard/stats').then(setStats)
    .catch(console.error).finally(() => setLoading(false))].  Returns the new
    [stats] and [loading]. *)
Definition Dashboard_effect (storage : Storage) (server : Server) (stats : Value)
  : (Value * bool) * list Effect :=
  match apiCall storage server "/dashboard/stats" no_options with
  | (t, inr data) => ((data, false), t)
  | (t, inl e) => ((stats, false), t ++ [ConsoleError e])%list
  end.



(** [prompt('Add a message (optional):') || '']. *)
Definition message_or_empty (answer : Answer) : string :=
  if Answer_truthy answer then default "" answer else "".

(** The body of the RFQ-creation request, before [JSON.stringify]. *)
Definition createRFQ_body (productId : Value) (quantity message : string) : Value :=
  VObj {[ "product_id" := productId;
          "quantity" := VNum (parseInt quantity);
          "message" := VStr message;
          "expires_in_days" := VNum (Number_of_Z 7) ]}.

(** ProductList's [createRFQ(productId)]; [quantity] and [message_answer]
    are what the user answers to the two prompts. *)
Definition createRFQ (storage : Storage) (server : Server) (productId : Value)
    (quantity message_answer : Answer) : Cmd unit :=
  let message := message_or_empty message_answer in
  match quantity with
  | Some q =>
      if negb (String.eqb q "") && String_gt_zero q   (* quantity && quantity > 0 *)
      then
        try_catch
          (apiCall storage server "/rfqs"
             {| opt_method := Some "POST"; opt_headers := None;
                opt_body := JSON_stringify (createRFQ_body productId q message) |};;
           emit (Alert "RFQ created successfully!"))
          (fun error => emit (Alert ("Failed to create RFQ: " ++ Browser.message error)))
      else mret tt
  | None => mret tt
  end.

(** The body of the quote request, before [JSON.stringify]. *)
Definition submitQuote_body (rfqId : Value) (pricePerUnit deliveryTime message : string)
  : Value :=
  VObj {[ "rfq_id" := rfqId;
          "price_per_unit" := VNum (parseFloat pricePerUnit);
          "delivery_time" := VStr deliveryTime;
          "message" := VStr message ]}.

(** RFQList's [submitQuote(rfqId)]; the three answers are those to the
    three prompts. *)
Definition submitQuote (storage : Storage) (server : Server) (rfqId : Value)
    (pricePerUnit deliveryTime message_answer : Answer) : Cmd unit :=
  let message := message_or_empty message_answer in
  match pricePerUnit, deliveryTime with
  | Some price, Some delivery =>
      if negb (String.eqb price "") && negb (String.eqb delivery "")
      then                                     (* pricePerUnit && deliveryTime *)
        try_catch
          (apiCall storage server "/quotes"
             {| opt_method := Some "POST"; opt_headers := None;
                opt_body := JSON_stringify
                              (submitQuote_body rfqId price delivery message) |};;
           emit (Alert "Quote submitted successfully!");;
           emit Reload)
          (fun error => emit (Alert ("Failed to submit quote: " ++ Browser.message error)))
      else mret tt
  | _, _ => mret tt
  end.

(** RegisterForm's [handleSubmit]: the new [error], [success] and [loading]
    of the form.  When [register] throws nothing catches it, and [loading]
    stays set. *)
Definition RegisterForm_handleSubmit (server : Server) (formData : FormData)
    (success : bool) : (Value * bool * bool) * list Effect :=
  match register server formData with
  | (t, inr {| success := true |}) => ((VStr "", true, false), t)
  | (t, inr {| success := false; error := detail |}) => ((detail, success, false), t)
  | (t, inl _) => ((VStr "", success, true), t)
  end.

(** LoginForm's [handleSubmit]: the new [error] and [loading] of the form,
    and what [login] made of the provider's state and of storage.  When
    [login] throws nothing catches it, and [loading] stays set. *)
Definition LoginForm_handleSubmit (server : Server) (email password : string)
    (st : AuthState) (storage : Storage)
  : (Value * bool) * AuthState * Storage * list Effect :=
  match login server email password st storage with
  | (st', storage', (t, inr {| success := true |})) =>
      ((VStr "", false), st', storage', t)
  | (st', storage', (t, inr {| success := false; error := detail |})) =>
      ((detail, false), st', storage', t)
  | (st', storage', (t, inl _)) => ((VStr "", true), st', storage', t)
  end.

End Source.

(** ** The commands of the interface *)




(** ** What a view shows *)

(** [contains tree e]: the element [e] occurs in [tree]. *)
Inductive contains : Element -> Element -> Prop :=
| contains_self e : contains e e
| contains_Fragment kids kid e : kid ∈ kids -> contains kid e -> contains (Fragment kids) e
| contains_El tag kids kid e : kid ∈ kids -> contains kid e -> contains (El tag kids) e
| contains_Button a kids kid e : kid ∈ kids -> contains kid e -> contains (Button a kids) e
| contains_SubmitButton d kids kid e :
    kid ∈ kids -> contains kid e -> contains (SubmitButton d kids) e
| contains_Form a kids kid e : kid ∈ kids -> contains kid e -> contains (Form a kids) e.

(** The counters of the dashboard: for each role, the title of the box and
    the property of [stats] it shows. *)
Definition dashboard_counters : list (string * string * string) :=
  [ ("admin", "Total Users", "total_users");
    ("admin", "Total Products", "total_products");
    ("admin", "Total Orders", "total_orders");
    ("supplier", "My Products", "my_products");
    ("supplier", "My Orders", "my_orders");
    ("supplier", "Pending RFQs", "pending_rfqs");
    ("buyer", "My RFQs", "my_rfqs");
    ("buyer", "My Orders", "my_orders") ].

(** ** Navigating *)

(** Clicking one of the navigation buttons that Navigation renders for
    [user] while showing [view] makes [view'] the current view. *)
Definition Navigation_step (host : Host) (user : Value) (view view' : string) : Prop :=
  ∃ s tree, Navigation host user view s = Some tree ∧ fires tree (SetCurrentView view').

(** The views Navigation can come to show: it starts on the dashboard. *)
Definition Navigation_reaches (host : Host) (user : Value) (view : string) : Prop :=
  rtc (Navigation_step host user) "dashboard" view.

(** Using a control of the registration form replaces [formData]. *)
Definition RegisterForm_step (formData formData' : FormData) : Prop :=
  ∃ error loading,
    fires (RegisterForm formData error false loading) (SetFormData formData').

(** The form data the registration form can come to hold. *)
Definition RegisterForm_reaches (formData : FormData) : Prop :=
  rtc RegisterForm_step RegisterForm_initial formData.

(** ** Kinds of action *)

(** The actions of the login and registration forms, and the switch
    between the two. *)
Definition form_action (a : Action) : Prop :=
  match a with
  | LoginSubmit _ _ | RegisterSubmit _ | SetEmail _ | SetPassword _
  | SetFormData _ | ReloadPage | SetShowRegister _ => True
  | Logout | CreateRFQ _ | SubmitQuote _ | SetCurrentView _ => False
  end.

(** ** Well-formed data *)



(** The digits of a decimal numeral, most significant first. *)
Fixpoint uint_digits (d : Decimal.uint) : list N :=
  match d with
  | Decimal.Nil => []
  | Decimal.D0 d => 0%N :: uint_digits d
  | Decimal.D1 d => 1%N :: uint_digits d
  | Decimal.D2 d => 2%N :: uint_digits d
  | Decimal.D3 d => 3%N :: uint_digits d
  | Decimal.D4 d => 4%N :: uint_digits d
  | Decimal.D5 d => 5%N :: uint_digits d
  | Decimal.D6 d => 6%N :: uint_digits d
  | Decimal.D7 d => 7%N :: uint_digits d
  | Decimal.D8 d => 8%N :: uint_digits d
  | Decimal.D9 d => 9%N :: uint_digits d
  end.

(** The characters of a decimal numeral. *)
Definition uint_chars (d : Decimal.uint) : list ascii :=
  list_ascii_of_string (NilEmpty.string_of_uint d).

(** The way a user types the natural number [n]: its decimal numeral. *)
Definition decimal (n : N) : string := NilEmpty.string_of_uint (N.to_uint n).

End App.

(* ===================================================================== *)
(** * Sample data                                                         *)
(* ===================================================================== *)

Module Sample.
Import JS Browser App.

Definition host : Host :=
  {| BACKEND_URL := "http://localhost:8001";
     Number_toString := fun _ => "0";
     toLocaleDateString := fun _ => "Invalid Date";
     TypeError := {| name := "TypeError"; message := "Cannot read properties of null" |} |}.

Definition account (role : string) : Value :=
  VObj {[ "id" := VStr "u1"; "role" := VStr role;
          "company_name" := VStr "Acme"; "contact_person" := VStr "Jo" ]}.

Definition admin : Value := account "admin".
Definition supplier : Value := account "supplier".
Definition buyer : Value := account "buyer".

Definition product : Value :=
  VObj {[ "id" := VStr "p1"; "name" := VStr "Bolt"; "category_id" := VStr "c1" ]}.

Definition open_rfq : Value :=
  VObj {[ "id" := VStr "r1"; "product_id" := VStr "p1"; "status" := VStr "open" ]}.

(** Hook state right after mounting: everything still loading. *)
Definition loading_content : ContentState :=
  {| stats := VObj ∅; dashboard_loading := true;
     products := VArr []; categories := VArr []; products_loading := true;
     rfqs := VArr []; rfq_products := VArr []; rfqs_loading := true |}.

(** Hook state once the lists have arrived. *)
Definition loaded_content : ContentState :=
  {| stats := VObj ∅; dashboard_loading := false;
     products := VArr [product]; categories := VArr []; products_loading := false;
     rfqs := VArr [open_rfq]; rfq_products := VArr [product]; rfqs_loading := false |}.

Definition views (view : string) (c : ContentState) : ViewState :=
  {| showRegister := false;
     login_email := ""; login_password := "";
     login_error := VStr ""; login_loading := false;
     formData := RegisterForm_initial; register_error := VStr "";
     register_success := false; register_loading := false;
     currentView := view; content := c |}.

Definition signed_in (user : Value) : AuthState :=
  {| user := user; token := VStr "t"; loading := false; effect_due := false |}.

(** A server that accepts everything and answers [{}]. *)
Definition accepting : Server :=
  fun _ => Resolved {| ok := true; statusText := "OK"; json := inr (VObj ∅) |}.



(** The detail of a validation error, as a list of objects. *)
Definition validation_detail : Value :=
  VArr [VObj {[ "loc" := VArr [VStr "body"; VStr "email"];
                "msg" := VStr "value is not a valid email address" ]}].


(** A server on which login succeeds for the buyer with token ["t"], and
    every other request is cut off. *)
Definition login_only : Server :=
  fun request =>
    if String.eqb (url request) (API host ++ "/login") then
      Resolved {| ok := true; statusText := "OK";
                  json := inr (VObj {[ "access_token" := VStr "t"; "user" := buyer ]}) |}
    else Rejected {| name := "TypeError"; message := "Failed to fetch" |}.


End Sample.

(* ===================================================================== *)
(** * Properties                                                          *)
(* ===================================================================== *)

Import JS Browser App.

(** ** The language fragment *)

Lemma StrictEquals_VStr v s : StrictEquals v (VStr s) = true ↔ v = VStr s.
Proof.
  destruct v; simpl; try (split; [discriminate | intros [=]]).
  rewrite String.eqb_eq. split; [intros -> | intros [=]]; done.
Qed.

Lemma includes_elem roles v : includes roles v = true ↔ ∃ r, r ∈ roles ∧ v = VStr r.
Proof.
  unfold includes. rewrite existsb_exists. split.
  - intros (r & Hin & Heq). exists r. split; [by apply list_elem_of_In|].
    destruct v; simpl in Heq; try discriminate.
    apply String.eqb_eq in Heq. by subst.
  - intros (r & Hin & ->). exists r. split; [by apply list_elem_of_In|].
    simpl. apply String.eqb_refl.
Qed.



(** The conversions at work on a few answers to the prompts. *)

Example StringToNumber_tenth :
  StringToNumber "0.1" = S754_finite false 7205759403792794 (-56).
Proof. reflexivity. Qed.

Example StringToNumber_hex : StringToNumber " 0x10 " = Number_of_Z 16.
Proof. reflexivity. Qed.

Example StringToNumber_underflow :
  StringToNumber "5e-324" = S754_finite false 1 (-1074) ∧
  StringToNumber "2.4e-324" = S754_zero false.
Proof. split; reflexivity. Qed.

Example StringToNumber_overflow :
  StringToNumber "1.7976931348623158e308" = S754_finite false 9007199254740991 971 ∧
  StringToNumber "1.7976931348623159e308" = Infinity false.
Proof. split; reflexivity. Qed.

Example guard_on_half : String_gt_zero "0.5" = true.
Proof. reflexivity. Qed.

Example guard_on_others :
  String_gt_zero "" = false ∧ String_gt_zero "abc" = false ∧
  String_gt_zero "0" = false ∧ String_gt_zero "-3" = false ∧
  String_gt_zero "1e-400" = false.
Proof. repeat split; reflexivity. Qed.

Example parseInt_examples :
  parseInt "0.5" = S754_zero false ∧ parseInt "12abc" = Number_of_Z 12 ∧
  parseInt "  -42.9" = Number_of_Z (-42) ∧ parseInt "0x1f" = Number_of_Z 31 ∧
  parseInt ".5" = NaN ∧ parseInt "-0" = S754_zero true.
Proof. repeat split; reflexivity. Qed.

Example parseFloat_examples :
  parseFloat "-5" = Number_of_Z (-5) ∧ parseFloat "0" = S754_zero false ∧
  parseFloat "3.5 per unit" = S754_finite false 7881299347898368 (-51) ∧
  parseFloat "free" = NaN.
Proof. repeat split; reflexivity. Qed.

(** ** [apiCall] *)

(** One call sends one request, and throws exactly when the request fails. *)
Lemma apiCall_sends host storage server endpoint options :
  ∃ request,
    url request = API host ++ endpoint ∧
    method request = default "GET" (opt_method options) ∧
    body request = opt_body options ∧
    trace (apiCall host storage server endpoint options) = [Fetch request] ∧
    match failure server request with
    | Some e => outcome (apiCall host storage server endpoint options) = inl e
    | None => ∃ data, outcome (apiCall host storage server endpoint options) = inr data
    end.
Proof.
  unfold apiCall. cbv zeta.
  match goal with |- context [emit (Fetch ?r)] => exists r end.
  split; [|split; [|split]]; [reflexivity..|].
  unfold failure. simpl.
  match goal with |- context [server ?r] => destruct (server r) as [e|response] end.
  - by split.
  - destruct (ok response); simpl; [|by split].
    destruct (json response); simpl; [by split|]. split; [done|]. eauto.
Qed.

(** ** [createRFQ] and [submitQuote] *)

Ltac run_cmd :=
  unfold mbind, mret, Cmd_bind, Cmd_ret, bind, try_catch, ret, emit, throw,
    trace, outcome in *; simpl in *.

(** When the guard [quantity && quantity > 0] lets it through, [createRFQ]
    sends one POST to [/rfqs] and then tells the user how it went. *)
Lemma createRFQ_issued host storage server productId q answer :
  q ≠ "" → String_gt_zero q = true →
  ∃ request,
    url request = API host ++ "/rfqs" ∧
    method request = "POST" ∧
    body request
      = JSON_stringify (createRFQ_body productId q (message_or_empty answer)) ∧
    trace (createRFQ host storage server productId (Some q) answer)
      = [Fetch request;
         Alert (match failure server request with
                | Some e => "Failed to create RFQ: " ++ message e
                | None => "RFQ created successfully!"
                end)].
Proof.
  intros Hq Hgt. unfold createRFQ. rewrite Hgt.
  apply String.eqb_neq in Hq. rewrite Hq. simpl negb. cbv iota. simpl andb. cbv iota.
  match goal with |- context [apiCall ?h ?st ?sv ?e ?o] =>
    destruct (apiCall_sends h st sv e o) as (request & Hurl & Hm & Hb & Ht & Hout);
    destruct (apiCall h st sv e o) as [t r] end.
  exists request. run_cmd. subst t. repeat split; try done.
  destruct (failure server request) as [e|].
  - by subst r.
  - destruct Hout as [data ->]. done.
Qed.

(** Otherwise it does nothing at all. *)
Lemma createRFQ_held_back host storage server productId quantity answer :
  (∀ q, quantity = Some q → q = "" ∨ String_gt_zero q = false) →
  createRFQ host storage server productId quantity answer = ([], inr tt).
Proof.
  intros H. unfold createRFQ. destruct quantity as [q|]; [|done].
  destruct (H q eq_refl) as [-> | ->]; [done|].
  by rewrite andb_false_r.
Qed.

(** The same for [submitQuote], whose guard is [pricePerUnit && deliveryTime]. *)
Lemma submitQuote_issued host storage server rfqId price delivery answer :
  price ≠ "" → delivery ≠ "" →
  ∃ request,
    url request = API host ++ "/quotes" ∧
    method request = "POST" ∧
    body request
      = JSON_stringify
          (submitQuote_body rfqId price delivery (message_or_empty answer)) ∧
    trace (submitQuote host storage server rfqId (Some price) (Some delivery) answer)
      = Fetch request ::
        match failure server request with
        | Some e => [Alert ("Failed to submit quote: " ++ message e)]
        | None => [Alert "Quote submitted successfully!"; Reload]
        end.
Proof.
  intros Hp Hd. unfold submitQuote.
  apply String.eqb_neq in Hp, Hd. rewrite Hp, Hd. simpl negb. simpl andb. cbv iota.
  match goal with |- context [apiCall ?h ?st ?sv ?e ?o] =>
    destruct (apiCall_sends h st sv e o) as (request & Hurl & Hm & Hb & Ht & Hout);
    destruct (apiCall h st sv e o) as [t r] end.
  exists request. run_cmd. subst t. repeat split; try done.
  destruct (failure server request) as [e|].
  - by subst r.
  - destruct Hout as [data ->]. done.
Qed.

Lemma body_field (fields : gmap string Value) k v :
  fields !! k = Some v →
  ∃ fields', JSON_stringify (VObj fields) = Some (VObj fields') ∧
             fields' !! k = JSON_stringify v.
Proof.
  intros Hk. eexists. split; [reflexivity|].
  rewrite lookup_omap, Hk. done.
Qed.

(** C7.  Every RFQ created through the interface asks for the default
    validity window: whenever [createRFQ] sends a request, it is a POST to
    [/rfqs] whose body has [expires_in_days] equal to 7. *)
Theorem createRFQ_expires_in_seven_days
    host storage server productId quantity answer request :
  Fetch request ∈ trace (createRFQ host storage server productId quantity answer) →
  url request = API host ++ "/rfqs" ∧
  method request = "POST" ∧
  ∃ fields, body request = Some (VObj fields) ∧
            fields !! "expires_in_days" = Some (VNum (Number_of_Z 7)).
Proof.
  intros Hin.
  destruct quantity as [q|]; [|by apply elem_of_nil in Hin].
  destruct (decide (q = "")) as [->|Hq]; [by apply elem_of_nil in Hin|].
  destruct (String_gt_zero q) eqn:Hgt; cycle 1.
  { rewrite createRFQ_held_back in Hin; [by apply elem_of_nil in Hin|].
    intros ? [= <-]. by right. }
  destruct (createRFQ_issued host storage server productId q answer Hq Hgt)
    as (request' & Hurl & Hm & Hb & Ht).
  rewrite Ht in Hin. apply elem_of_cons in Hin as [[= ->]|Hin]; cycle 1.
  { apply elem_of_cons in Hin as [[=]|Hin]. by apply elem_of_nil in Hin. }
  repeat split; [done..|]. rewrite Hb.
  destruct (body_field
              {[ "product_id" := productId; "quantity" := VNum (parseInt q);
                 "message" := VStr (message_or_empty answer);
                 "expires_in_days" := VNum (Number_of_Z 7) ]}
              "expires_in_days" (VNum (Number_of_Z 7))) as (fields & Hf & Hl).
  { reflexivity. }
  exists fields. split; [exact Hf|]. rewrite Hl. reflexivity.
Qed.

Lemma createRFQ_expires_in_seven_days_witness :
  let request :=
    {| url := "http://localhost:8001/api/rfqs"; method := "POST";
       headers := {[ "Content-Type" := "application/json" ]};
       body := JSON_stringify (createRFQ_body (VStr "p1") "3" "") |} in
  Fetch request
    ∈ trace (createRFQ Sample.host ∅ Sample.accepting (VStr "p1") (Some "3") None) ∧
  (url request = API Sample.host ++ "/rfqs" ∧
   method request = "POST" ∧
   ∃ fields, body request = Some (VObj fields) ∧
             fields !! "expires_in_days" = Some (VNum (Number_of_Z 7))).
Proof.
  intros request.
  assert (Hin : Fetch request ∈ trace (createRFQ Sample.host ∅ Sample.accepting
                                         (VStr "p1") (Some "3") None)).
  { vm_compute. left. }
  split; [exact Hin|].
  exact (createRFQ_expires_in_seven_days Sample.host ∅ Sample.accepting (VStr "p1")
           (Some "3") None request Hin).
Defined.

(** What the guard of [createRFQ] does ensure: a request goes out only for
    an answer whose numeric value is greater than zero, so a dismissed
    prompt, an empty, a non-numeric or a non-positive answer sends nothing. *)
Lemma createRFQ_needs_positive_answer
    host storage server productId quantity answer request :
  Fetch request ∈ trace (createRFQ host storage server productId quantity answer) →
  ∃ q, quantity = Some q ∧ q ≠ "" ∧
       Number_lt (S754_zero false) (StringToNumber q) = true.
Proof.
  intros Hin.
  destruct quantity as [q|]; [|by apply elem_of_nil in Hin].
  destruct (decide (q = "")) as [->|Hq]; [by apply elem_of_nil in Hin|].
  destruct (String_gt_zero q) eqn:Hgt; [by exists q|].
  rewrite createRFQ_held_back in Hin; [by apply elem_of_nil in Hin|].
  intros ? [= <-]. by right.
Qed.

(** C4.  The guard tests the text of the answer, the request carries
    [parseInt] of it, and the two disagree: for the answer ["0.5"] the guard
    passes ([0.5 > 0]) and the request is sent with quantity [0]. *)
Theorem createRFQ_sends_quantity_zero host storage server productId answer :
  ∃ request rest,
    trace (createRFQ host storage server productId (Some "0.5") answer)
      = Fetch request :: rest ∧
    url request = API host ++ "/rfqs" ∧
    method request = "POST" ∧
    ∃ fields, body request = Some (VObj fields) ∧
              fields !! "quantity" = Some (VNum (S754_zero false)).
Proof.
  destruct (createRFQ_issued host storage server productId "0.5" answer)
    as (request & Hurl & Hm & Hb & Ht); [done | by vm_compute |].
  exists request. eexists. split; [exact Ht|]. split; [done|]. split; [done|].
  rewrite Hb.
  destruct (body_field
              {[ "product_id" := productId; "quantity" := VNum (parseInt "0.5");
                 "message" := VStr (message_or_empty answer);
                 "expires_in_days" := VNum (Number_of_Z 7) ]}
              "quantity" (VNum (parseInt "0.5"))) as (fields & Hf & Hl).
  { reflexivity. }
  exists fields. split; [exact Hf|]. rewrite Hl. reflexivity.
Qed.

(** C2.  [submitQuote] only asks that the price and the delivery time be
    non-empty; it never compares the price with zero.  For the price ["-5"]
    the request is sent, with [price_per_unit] equal to [-5]. *)
Theorem submitQuote_sends_negative_price host storage server rfqId answer :
  ∃ request rest,
    trace (submitQuote host storage server rfqId (Some "-5") (Some "3 days") answer)
      = Fetch request :: rest ∧
    url request = API host ++ "/quotes" ∧
    method request = "POST" ∧
    ∃ fields, body request = Some (VObj fields) ∧
              fields !! "price_per_unit" = Some (VNum (Number_of_Z (-5))) ∧
              Number_lt (Number_of_Z (-5)) (S754_zero false) = true.
Proof.
  destruct (submitQuote_issued host storage server rfqId "-5" "3 days" answer)
    as (request & Hurl & Hm & Hb & Ht); [done..|].
  exists request. eexists. split; [exact Ht|]. split; [done|]. split; [done|].
  rewrite Hb.
  destruct (body_field
              {[ "rfq_id" := rfqId; "price_per_unit" := VNum (parseFloat "-5");
                 "delivery_time" := VStr "3 days";
                 "message" := VStr (message_or_empty answer) ]}
              "price_per_unit" (VNum (parseFloat "-5"))) as (fields & Hf & Hl).
  { reflexivity. }
  exists fields. split; [exact Hf|]. rewrite Hl. split; reflexivity.
Qed.

(** The price is never looked at: any non-empty price and delivery time
    send the request, with [parseFloat] of the price in it. *)
Lemma submitQuote_ignores_price host storage server rfqId price delivery answer :
  price ≠ "" → delivery ≠ "" →
  ∃ request,
    Fetch request
      ∈ trace (submitQuote host storage server rfqId (Some price) (Some delivery) answer) ∧
    body request
      = JSON_stringify
          (submitQuote_body rfqId price delivery (message_or_empty answer)).
Proof.
  intros Hp Hd.
  destruct (submitQuote_issued host storage server rfqId price delivery answer Hp Hd)
    as (request & _ & _ & Hb & Ht).
  exists request. split; [|done]. rewrite Ht. left.
Qed.

(** ** Failures of commands *)

Ltac list_mem :=
  repeat match goal with
  | H : _ ∈ [] |- _ => by apply elem_of_nil in H
  | H : _ ∈ _ :: _ |- _ => apply elem_of_cons in H as [H|H]
  | H : _ ∈ _ ++ _ |- _ => apply elem_of_app in H as [H|H]
  | H : Fetch _ = Fetch _ |- _ => injection H as H; subst
  | H : Fetch _ = Alert _ |- _ => discriminate H
  | H : Fetch _ = ConsoleError _ |- _ => discriminate H
  | H : Fetch _ = Reload |- _ => discriminate H
  end.

Ltac is_mem :=
  simpl; eauto 10 using list_elem_of_here, list_elem_of_further.






(** ** What the rendered views let a user do *)

Create HintDb views.
#[local] Hint Constructors fires : views.
#[local] Hint Resolve list_elem_of_here list_elem_of_further : views.

(** Find the control that fires in a tree that is written out. *)
Ltac fire := simpl; eauto 60 with views nocore.

Lemma fires_And cond e a : fires (And cond e) a → ToBoolean cond = true ∧ fires e a.
Proof. unfold And. destruct (ToBoolean cond); [done|]. inversion 1. Qed.

Lemma mapM_elem {A B} (f : A → option B) l k y :
  mapM f l = Some k → y ∈ k → ∃ x, x ∈ l ∧ f x = Some y.
Proof.
  intros H%mapM_Some_1. induction H as [|x y' l k Hxy _ IH]; intros Hy.
  - by apply elem_of_nil in Hy.
  - apply elem_of_cons in Hy as [->|Hy].
    + exists x. split; [left|done].
    + destruct (IH Hy) as (x' & ? & ?). exists x'. split; [by right|done].
Qed.

(** Peel an option computation that is known to succeed. *)
Ltac succeeded H :=
  lazymatch type of H with
  | mbind _ ?o = Some _ =>
      let E := fresh "E" in
      destruct o eqn:E; simpl in H; [succeeded E; succeeded H | discriminate H]
  | (if ?b then _ else _) = Some _ =>
      let E := fresh "E" in destruct b eqn:E; succeeded H
  | Some _ = Some _ => injection H as H; try subst
  | None = Some _ => discriminate H
  | _ => idtac
  end.

(** Take a firing apart, down to the control that fires. *)
Ltac fired :=
  repeat match goal with
  | H : fires (Text _) _ |- _ => inversion H
  | H : fires (Expr _) _ |- _ => inversion H
  | H : fires (SubmitButton _ _) _ |- _ => inversion H; subst; clear H
  | H : fires (Input _ _ _ _) _ |- _ => inversion H; subst; clear H
  | H : fires (Select _ _ _) _ |- _ => inversion H; subst; clear H
  | H : fires (Form _ _) _ |- _ => inversion H; subst; clear H
  | H : fires (Button _ _) _ |- _ => inversion H; subst; clear H
  | H : fires (El _ _) _ |- _ => inversion H; subst; clear H
  | H : fires (Fragment _) _ |- _ => inversion H; subst; clear H
  | H : fires (And _ _) _ |- _ => apply fires_And in H as [? H]
  | H : _ ∈ [] |- _ => by apply elem_of_nil in H
  | H : _ ∈ _ :: _ |- _ => apply elem_of_cons in H as [->|H]
  end.

Lemma Header_fires user tree a : Header user = Some tree → fires tree a → a = Logout.
Proof. unfold Header. intros H Hf. succeeded H; by fired. Qed.

Lemma Dashboard_fires user stats loading tree a :
  Dashboard user stats loading = Some tree → fires tree a → False.
Proof. unfold Dashboard, stat_card. intros H Hf. succeeded H; by fired. Qed.

Lemma ProductCard_fires user categories product card a :
  ProductCard user categories product = Some card → fires card a →
  Get user "role" = Some (VStr "buyer") ∧
  ∃ id, Get product "id" = Some id ∧ a = CreateRFQ id.
Proof.
  unfold ProductCard. intros H Hf. succeeded H. fired.
  cbn [ToBoolean] in *. match goal with E : StrictEquals _ _ = true |- _ =>
    apply StrictEquals_VStr in E as -> end.
  eauto.
Qed.

Lemma ProductList_fires user products categories loading tree a :
  ProductList user products categories loading = Some tree → fires tree a →
  Get user "role" = Some (VStr "buyer") ∧
  ∃ elems product id,
    products = VArr elems ∧ product ∈ elems ∧
    Get product "id" = Some id ∧ a = CreateRFQ id.
Proof.
  unfold ProductList, Array_map. intros H Hf. succeeded H; fired.
  destruct products as [| | | | | elems |]; try discriminate.
  match goal with E : mapM _ _ = Some _, Hk : ?c ∈ _, Hc : fires ?c _ |- _ =>
    destruct (mapM_elem _ _ _ _ E Hk) as (product & Hin & Hcard);
    destruct (ProductCard_fires _ _ _ _ _ Hcard Hc) as (Hrole & id & Hid & ->) end.
  split; [congruence|]. by exists elems, product, id.
Qed.

Lemma RFQCard_fires host user products rfq card a :
  RFQCard host user products rfq = Some card → fires card a →
  Get user "role" = Some (VStr "supplier") ∧
  Get rfq "status" = Some (VStr "open") ∧
  ∃ id, Get rfq "id" = Some id ∧ a = SubmitQuote id.
Proof.
  unfold RFQCard. intros H Hf. succeeded H. fired.
  cbn [ToBoolean] in *. match goal with E : _ && _ = true |- _ =>
    apply andb_true_iff in E as [->%StrictEquals_VStr ->%StrictEquals_VStr] end.
  eauto.
Qed.

Lemma RFQList_fires host user rfqs products loading tree a :
  RFQList host user rfqs products loading = Some tree → fires tree a →
  Get user "role" = Some (VStr "supplier") ∧
  ∃ elems rfq id,
    rfqs = VArr elems ∧ rfq ∈ elems ∧
    Get rfq "status" = Some (VStr "open") ∧
    Get rfq "id" = Some id ∧ a = SubmitQuote id.
Proof.
  unfold RFQList, Array_map. intros H Hf. succeeded H; fired.
  destruct rfqs as [| | | | | elems |]; try discriminate.
  match goal with E : mapM _ _ = Some _, Hk : ?c ∈ _, Hc : fires ?c _ |- _ =>
    destruct (mapM_elem _ _ _ _ E Hk) as (rfq & Hin & Hcard);
    destruct (RFQCard_fires _ _ _ _ _ _ Hcard Hc)
      as (Hrole & Hst & id & Hid & ->) end.
  split; [congruence|]. by exists elems, rfq, id.
Qed.

(** Navigation offers its buttons, one per item left by the filter, and
    whatever the content component offers. *)
Lemma Navigation_fires host user view s tree a :
  Navigation host user view s = Some tree → fires tree a →
  (∃ items item, filteredNavItems user = Some items ∧ item ∈ items ∧
                 a = SetCurrentView (key item)) ∨
  (∃ content, render host (renderContent view) user s = Some content ∧
              fires content a).
Proof.
  unfold Navigation. intros H Hf. succeeded H. fired.
  - match goal with Hk : _ ∈ _ <$> _ |- _ =>
      apply list_elem_of_fmap in Hk as (item & -> & Hitem) end.
    fired. left. eauto.
  - right. eauto.
Qed.

Lemma LoginForm_fires email password error loading a :
  fires (LoginForm email password error loading) a →
  a = LoginSubmit email password ∨ (∃ v, a = SetEmail v) ∨ (∃ v, a = SetPassword v).
Proof. unfold LoginForm. intros Hf. fired; eauto. Qed.

Lemma RegisterForm_fires formData error success loading a :
  fires (RegisterForm formData error success loading) a →
  a = ReloadPage ∨ a = RegisterSubmit formData ∨ ∃ formData', a = SetFormData formData'.
Proof. unfold RegisterForm. intros Hf. destruct success; fired; eauto. Qed.

(** What MainApp offers: for a signed-in user, logging out, the navigation
    items, and the actions of the current content; otherwise the actions of
    the login or registration form and the switch between them. *)
Lemma MainApp_fires host auth v tree a :
  MainApp host auth v = Some tree → fires tree a →
  match a with
  | CreateRFQ id =>
      Get (user auth) "role" = Some (VStr "buyer") ∧
      renderContent (currentView v) = TheProductList ∧
      ∃ elems product,
        products (content v) = VArr elems ∧ product ∈ elems ∧
        Get product "id" = Some id
  | SubmitQuote id =>
      Get (user auth) "role" = Some (VStr "supplier") ∧
      renderContent (currentView v) = TheRFQList ∧
      ∃ elems rfq,
        rfqs (content v) = VArr elems ∧ rfq ∈ elems ∧
        Get rfq "status" = Some (VStr "open") ∧ Get rfq "id" = Some id
  | _ => True
  end.
Proof.
  unfold MainApp. intros H Hf. succeeded H; fired.
  - match goal with E : Header _ = Some ?h, Hh : fires ?h _ |- _ =>
      rewrite (Header_fires _ _ _ E Hh) end. done.
  - match goal with E : Navigation _ _ _ _ = Some ?n, Hn : fires ?n _ |- _ =>
      destruct (Navigation_fires _ _ _ _ _ _ E Hn)
        as [(items & item & _ & _ & ->) | (content & Hc & Hfc)] end; [done|].
    destruct (renderContent (currentView v)) eqn:Hview; simpl in Hc.
    + destruct (Dashboard_fires _ _ _ _ _ Hc Hfc).
    + destruct (ProductList_fires _ _ _ _ _ _ Hc Hfc)
        as (? & elems & product & id & ? & ? & ? & ->). eauto 10.
    + destruct (RFQList_fires _ _ _ _ _ _ _ Hc Hfc)
        as (? & elems & rfq & id & ? & ? & ? & ? & ->). eauto 10.
  - destruct (showRegister v); fired; try done;
      match goal with
      | Hr : fires (RegisterForm _ _ _ _) _ |- _ =>
          apply RegisterForm_fires in Hr as [->|[->|[? ->]]]
      | Hl : fires (LoginForm _ _ _ _) _ |- _ =>
          apply LoginForm_fires in Hl as [->|[[? ->]|[? ->]]]
      end; done.
Qed.

(** C1.  The authorization matrix holds at the interface.  In anything
    MainApp renders, an action that creates an RFQ can be triggered only
    when the user's role is ['buyer'], and an action that submits a quote
    only when the role is ['supplier'] and for an RFQ of the displayed list
    whose status is ['open'].  So nothing rendered lets a buyer submit a
    quote, or a supplier create an RFQ. *)
Theorem authorization_matrix_at_the_interface host auth v tree :
  MainApp host auth v = Some tree →
  (∀ productId, fires tree (CreateRFQ productId) →
     Get (user auth) "role" = Some (VStr "buyer")) ∧
  (∀ rfqId, fires tree (SubmitQuote rfqId) →
     Get (user auth) "role" = Some (VStr "supplier") ∧
     ∃ elems rfq, rfqs (content v) = VArr elems ∧ rfq ∈ elems ∧
                  Get rfq "id" = Some rfqId ∧
                  Get rfq "status" = Some (VStr "open")) ∧
  (Get (user auth) "role" = Some (VStr "buyer") →
     ∀ rfqId, ¬ fires tree (SubmitQuote rfqId)) ∧
  (Get (user auth) "role" = Some (VStr "supplier") →
     ∀ productId, ¬ fires tree (CreateRFQ productId)).
Proof.
  intros Htree.
  assert (Hc : ∀ productId, fires tree (CreateRFQ productId) →
                 Get (user auth) "role" = Some (VStr "buyer")).
  { intros id Hf. by destruct (MainApp_fires _ _ _ _ _ Htree Hf). }
  assert (Hs : ∀ rfqId, fires tree (SubmitQuote rfqId) →
     Get (user auth) "role" = Some (VStr "supplier") ∧
     ∃ elems rfq, rfqs (content v) = VArr elems ∧ rfq ∈ elems ∧
                  Get rfq "id" = Some rfqId ∧
                  Get rfq "status" = Some (VStr "open")).
  { intros id Hf.
    destruct (MainApp_fires _ _ _ _ _ Htree Hf)
      as (? & _ & elems & rfq & ? & ? & ? & ?). eauto 10. }
  split; [exact Hc|]. split; [exact Hs|]. split.
  - intros Hrole id Hf. destruct (Hs id Hf) as [Hrole' _]. congruence.
  - intros Hrole id Hf. specialize (Hc id Hf). congruence.
Qed.

Lemma authorization_matrix_at_the_interface_witness :
  ∃ tree,
    MainApp Sample.host (Sample.signed_in Sample.buyer)
      (Sample.views "products" Sample.loaded_content) = Some tree ∧
    fires tree (CreateRFQ (VStr "p1")) ∧
    (∀ productId, fires tree (CreateRFQ productId) →
       Get Sample.buyer "role" = Some (VStr "buyer")) ∧
    (∀ rfqId, ¬ fires tree (SubmitQuote rfqId)).
Proof.
  eexists. split; [vm_compute; reflexivity|]. split.
  - fire.
  - match goal with |- context [fires ?t] =>
      pose proof (authorization_matrix_at_the_interface Sample.host
                    (Sample.signed_in Sample.buyer)
                    (Sample.views "products" Sample.loaded_content) t eq_refl)
        as (Hc & _ & Hb & _) end.
    split; [exact Hc|]. exact (Hb eq_refl).
Defined.

(** ** Navigation *)

(** Which items survive the filter: the RFQs item for suppliers and buyers,
    the other three for the three roles. *)
Lemma filteredNavItems_keys user role_ :
  Get user "role" = Some role_ →
  ∃ items,
    filteredNavItems user = Some items ∧
    ∀ item, item ∈ items ↔
      item ∈ navItems ∧ ∃ r, r ∈ roles item ∧ role_ = VStr r.
Proof.
  intros Hrole. unfold filteredNavItems. rewrite Hrole.
  exists (List.filter (fun item => includes (roles item) role_) navItems).
  split; [reflexivity|]. intros item.
  rewrite list_elem_of_In, filter_In, <- list_elem_of_In, includes_elem. done.
Qed.

Lemma Navigation_offers host user view s tree items item :
  Navigation host user view s = Some tree →
  filteredNavItems user = Some items → item ∈ items →
  fires tree (SetCurrentView (key item)).
Proof.
  unfold Navigation. intros H Hitems Hin. rewrite Hitems in H. simpl in H.
  succeeded H.
  eapply fires_in_El; [apply list_elem_of_here|].
  eapply fires_in_El; [apply list_elem_of_here|].
  eapply fires_in_El; [apply list_elem_of_further, list_elem_of_here|].
  eapply fires_in_El; [by apply list_elem_of_fmap_2|].
  fire.
Qed.

(** The content components offer nothing but [CreateRFQ] and [SubmitQuote]. *)
Lemma render_fires host c user s content a :
  render host c user s = Some content → fires content a →
  (∃ id, a = CreateRFQ id) ∨ (∃ id, a = SubmitQuote id).
Proof.
  destruct c; simpl; intros H Hf.
  - destruct (Dashboard_fires _ _ _ _ _ H Hf).
  - destruct (ProductList_fires _ _ _ _ _ _ H Hf) as (_ & ? & ? & id & _ & _ & _ & ->).
    eauto.
  - destruct (RFQList_fires _ _ _ _ _ _ _ H Hf)
      as (_ & ? & ? & id & _ & _ & _ & _ & ->).
    eauto.
Qed.

(** A step of Navigation leads to the key of an item offered to the user. *)
Lemma Navigation_step_offered host user view view' :
  Navigation_step host user view view' →
  ∃ items item, filteredNavItems user = Some items ∧ item ∈ items ∧
                view' = key item.
Proof.
  intros (s & tree & Htree & Hf).
  destruct (Navigation_fires _ _ _ _ _ _ Htree Hf)
    as [(items & item & ? & ? & [= ->]) | (content & Hc & Hfc)]; [eauto|].
  destruct (render_fires _ _ _ _ _ _ Hc Hfc) as [[? [=]] | [? [=]]].
Qed.

Lemma renderContent_RFQList view : renderContent view = TheRFQList → view = "rfqs".
Proof.
  unfold renderContent.
  destruct (String.eqb_spec view "dashboard"); [done|].
  destruct (String.eqb_spec view "products"); [done|].
  destruct (String.eqb_spec view "rfqs"); done.
Qed.

Lemma renderContent_ProductList view :
  renderContent view = TheProductList → view = "products".
Proof.
  unfold renderContent.
  destruct (String.eqb_spec view "dashboard"); [done|].
  destruct (String.eqb_spec view "products"); [done|].
  destruct (String.eqb_spec view "rfqs"); done.
Qed.

(** Navigation comes to show the RFQ list only for a supplier or a buyer. *)
Lemma RFQList_reached_by host user role_ view :
  Get user "role" = Some role_ →
  Navigation_reaches host user view → renderContent view = TheRFQList →
  role_ = VStr "supplier" ∨ role_ = VStr "buyer".
Proof.
  intros Hrole Hreach ->%renderContent_RFQList.
  apply rtc_inv_r in Hreach as [[=] | (view & _ & Hstep)].
  destruct (Navigation_step_offered _ _ _ _ Hstep) as (items & item & Hitems & Hin & Hkey).
  destruct (filteredNavItems_keys user role_ Hrole) as (items' & Hitems' & Hspec).
  assert (items' = items) as -> by congruence.
  apply Hspec in Hin as (Hnav & r & Hr & ->).
  unfold navItems in Hnav. list_mem; subst; simpl in *; try discriminate.
  list_mem; subst; auto.
Qed.

Lemma rfqs_item_offered role_ :
  role_ = VStr "supplier" ∨ role_ = VStr "buyer" →
  {| key := "rfqs"; label := "RFQs"; roles := ["supplier"; "buyer"] |} ∈ navItems ∧
  ∃ r, r ∈ ["supplier"; "buyer"] ∧ role_ = VStr r.
Proof.
  intros H. split; [unfold navItems; is_mem|].
  destruct H as [-> | ->]; [exists "supplier" | exists "buyer"]; split; is_mem.
Qed.

(** Right after mounting, Navigation shows the dashboard's placeholder. *)
Lemma Navigation_mounts host user role_ :
  Get user "role" = Some role_ →
  is_Some (Navigation host user "dashboard" Sample.loading_content).
Proof.
  intros Hrole. unfold Navigation, filteredNavItems. rewrite Hrole. simpl. eauto.
Qed.

(** C3, as the code has it.  The RFQ listing is for suppliers and buyers
    only: the navigation offers an item with key ['rfqs'], and the RFQ list
    can come to be shown, exactly when the user's role is ['supplier'] or
    ['buyer'].  For any other role, ['admin'] included, there is no such
    item and no sequence of clicks leads to the RFQ list. *)
Theorem RFQ_listing_for_suppliers_and_buyers host user role_ :
  Get user "role" = Some role_ →
  (∃ items, filteredNavItems user = Some items ∧
            ((∃ item, item ∈ items ∧ key item = "rfqs") ↔
             role_ = VStr "supplier" ∨ role_ = VStr "buyer")) ∧
  ((∃ view, Navigation_reaches host user view ∧ renderContent view = TheRFQList) ↔
   role_ = VStr "supplier" ∨ role_ = VStr "buyer").
Proof.
  intros Hrole.
  destruct (filteredNavItems_keys user role_ Hrole) as (items & Hitems & Hspec).
  split.
  - exists items. split; [done|]. split.
    + intros (item & Hin & Hkey). apply Hspec in Hin as (Hnav & r & Hr & ->).
      unfold navItems in Hnav. list_mem; subst; simpl in *; try discriminate.
      list_mem; subst; auto.
    + intros H. destruct (rfqs_item_offered role_ H) as [Hnav Hr].
      eexists. split; [apply Hspec; split; [exact Hnav | exact Hr]|]. done.
  - split.
    + intros (view & Hreach & Hview). by eapply RFQList_reached_by.
    + intros H. destruct (rfqs_item_offered role_ H) as [Hnav Hr].
      exists "rfqs". split; [|done].
      destruct (Navigation_mounts host user role_ Hrole) as [tree Htree].
      apply rtc_once. exists Sample.loading_content, tree. split; [done|].
      eapply (Navigation_offers _ _ _ _ _ items
                {| key := "rfqs"; label := "RFQs"; roles := ["supplier"; "buyer"] |});
        [done..|].
      apply Hspec. by split.
Qed.

Lemma RFQ_listing_for_suppliers_and_buyers_witness :
  Get Sample.supplier "role" = Some (VStr "supplier") ∧
  ∃ view, Navigation_reaches Sample.host Sample.supplier view ∧
          renderContent view = TheRFQList.
Proof.
  split; [reflexivity|].
  apply (RFQ_listing_for_suppliers_and_buyers Sample.host Sample.supplier
           (VStr "supplier") eq_refl).
  by left.
Defined.

(** C3, as stated, fails for an admin: the navigation filters the RFQs item
    out, and the RFQ list is never shown. *)
Lemma admin_never_reaches_RFQ_listing :
  filteredNavItems Sample.admin
    = Some [ {| key := "dashboard"; label := "Dashboard";
                roles := ["admin"; "supplier"; "buyer"] |};
             {| key := "products"; label := "Products";
                roles := ["admin"; "supplier"; "buyer"] |};
             {| key := "orders"; label := "Orders";
                roles := ["admin"; "supplier"; "buyer"] |} ] ∧
  ¬ ∃ view, Navigation_reaches Sample.host Sample.admin view ∧
            renderContent view = TheRFQList.
Proof.
  split; [reflexivity|]. intros (view & Hreach & Hview).
  destruct (RFQList_reached_by Sample.host Sample.admin (VStr "admin") view
              eq_refl Hreach Hview) as [[=] | [=]].
Qed.

(** C10.  The Orders item is offered to each of the three roles, whatever
    Navigation is showing; choosing it makes ['orders'] the current view.
    For that view, as for every view other than ['dashboard'], ['products']
    and ['rfqs'], [renderContent] falls through to the Dashboard, and what
    Navigation puts in its main area is the Dashboard's page, next to the
    same navigation bar.  The only other components are the product list and
    the RFQ list, shown for ['products'] and ['rfqs']: there is no Orders
    view. *)
Theorem orders_item_renders_Dashboard host user r view s tree :
  Get user "role" = Some (VStr r) → r ∈ ["admin"; "supplier"; "buyer"] →
  Navigation host user view s = Some tree →
  fires tree (SetCurrentView "orders") ∧
  renderContent "orders" = TheDashboard ∧
  render host (renderContent "orders") user s
    = Dashboard user (stats s) (dashboard_loading s) ∧
  (∃ nav,
     fires nav (SetCurrentView "orders") ∧
     ∀ view', view' ∉ ["dashboard"; "products"; "rfqs"] →
              Navigation host user view' s
              = (page ← Dashboard user (stats s) (dashboard_loading s);
                 Some (El "div" [nav; El "main" [page]]))) ∧
  (∀ view', view' ∉ ["dashboard"; "products"; "rfqs"] →
            renderContent view' = TheDashboard) ∧
  (∀ view', renderContent view' = TheProductList → view' = "products") ∧
  (∀ view', renderContent view' = TheRFQList → view' = "rfqs").
Proof.
  intros Hrole Hr Htree.
  destruct (filteredNavItems_keys user (VStr r) Hrole) as (items & Hitems & Hspec).
  assert (Horders : {| key := "orders"; label := "Orders";
                       roles := ["admin"; "supplier"; "buyer"] |} ∈ items).
  { apply Hspec. split; [unfold navItems; is_mem|]. by exists r. }
  assert (Hdefault : ∀ view', view' ∉ ["dashboard"; "products"; "rfqs"] →
                              renderContent view' = TheDashboard).
  { intros view' Hout. unfold renderContent.
    destruct (String.eqb_spec view' "dashboard"); [done|].
    destruct (String.eqb_spec view' "products") as [->|]; [|].
    { exfalso. apply Hout. is_mem. }
    destruct (String.eqb_spec view' "rfqs") as [->|]; [|done].
    exfalso. apply Hout. is_mem. }
  split; [|split; [done|split; [done|split; [|split; [done|split]]]]].
  - by eapply (Navigation_offers _ _ _ _ _ items
                 {| key := "orders"; label := "Orders";
                    roles := ["admin"; "supplier"; "buyer"] |}).
  - eexists. split; cycle 1.
    + intros view' Hout. unfold Navigation. rewrite Hitems, (Hdefault view' Hout).
      reflexivity.
    + eapply fires_in_El; [apply list_elem_of_here|].
      eapply fires_in_El; [apply list_elem_of_further, list_elem_of_here|].
      eapply fires_in_El; [apply list_elem_of_fmap_2, Horders|].
      fire.
  - apply renderContent_ProductList.
  - apply renderContent_RFQList.
Qed.

Lemma orders_item_renders_Dashboard_witness :
  Get Sample.admin "role" = Some (VStr "admin") ∧
  "admin" ∈ ["admin"; "supplier"; "buyer"] ∧
  ∃ tree nav page,
    Navigation Sample.host Sample.admin "products" Sample.loaded_content = Some tree ∧
    fires tree (SetCurrentView "orders") ∧
    Dashboard Sample.admin (VObj ∅) false = Some page ∧
    Navigation Sample.host Sample.admin "orders" Sample.loaded_content
    = Some (El "div" [nav; El "main" [page]]).
Proof.
  split; [reflexivity|]. split; [is_mem|].
  eexists.
  match goal with |- ∃ nav page, ?N = Some ?t ∧ _ =>
    assert (Htree : N = Some t) by (vm_compute; reflexivity);
    pose proof (orders_item_renders_Dashboard Sample.host Sample.admin "admin"
                  "products" Sample.loaded_content t eq_refl
                  (list_elem_of_here _ _) Htree) as (Hf & _ & _ & (nav & _ & Hnav) & _)
  end.
  exists nav. eexists. split; [exact Htree|]. split; [exact Hf|].
  split; [vm_compute; reflexivity|].
  rewrite (Hnav "orders") by (intros H; list_mem; discriminate). reflexivity.
Defined.

(** ** Registration *)

(** Using a control of the form keeps the role or sets it to one of the
    two options of the selector. *)
Lemma RegisterForm_step_role formData formData' :
  RegisterForm_step formData formData' →
  role formData' = role formData ∨ role formData' ∈ ["buyer"; "supplier"].
Proof.
  intros (error & loading & Hf). unfold RegisterForm in Hf. fired.
  all: try (unfold And in *; destruct (ToBoolean error); fired).
  all: try by left.
  all: right; simpl in *; list_mem; subst; is_mem.
Qed.

Lemma RegisterForm_reaches_role formData :
  RegisterForm_reaches formData → role formData ∈ ["buyer"; "supplier"].
Proof.
  unfold RegisterForm_reaches. revert formData. apply rtc_ind_r.
  - simpl. is_mem.
  - intros formData formData' _ Hstep IH.
    destruct (RegisterForm_step_role _ _ Hstep) as [-> | ?]; done.
Qed.

Lemma register_sends host server userData request :
  Fetch request ∈ trace (register host server userData) →
  body request = JSON_stringify (FormData_json userData).
Proof.
  unfold register. cbv zeta.
  match goal with |- context [server ?r] => destruct (server r) as [e|response] end;
    [|destruct (ok response); [|destruct (json response) as [e|data];
                                [|destruct (Get data "detail")]]];
    run_cmd; intros Hin; list_mem; done.
Qed.

(** C9.  Self-registration never asks for an admin.  The form starts with
    the role ['buyer'], and its controls can only keep the role or set it to
    one of the selector's options, ['buyer'] and ['supplier'].  So whatever
    the user does to the form, the data its submit handler passes to
    [register] is the form's, and the request that [register] sends carries
    a role that is ['buyer'] or ['supplier']. *)
Theorem registration_role_is_buyer_or_supplier host server formData :
  RegisterForm_reaches formData →
  role formData ∈ ["buyer"; "supplier"] ∧
  (∀ error loading submitted,
     fires (RegisterForm formData error false loading) (RegisterSubmit submitted) →
     submitted = formData) ∧
  (∀ request,
     Fetch request ∈ trace (register host server formData) →
     ∃ fields, body request = Some (VObj fields) ∧
               (fields !! "role" = Some (VStr "buyer") ∨
                fields !! "role" = Some (VStr "supplier"))).
Proof.
  intros Hrole%RegisterForm_reaches_role. split; [done|]. split.
  - intros error loading submitted Hf. unfold RegisterForm in Hf. fired; try done.
    all: unfold And in *; destruct (ToBoolean error); fired.
  - intros request ->%register_sends.
    destruct (body_field
                {[ "email" := VStr (email formData);
                   "password" := VStr (password formData);
                   "company_name" := VStr (company_name formData);
                   "contact_person" := VStr (contact_person formData);
                   "phone" := VStr (phone formData);
                   "role" := VStr (role formData) ]}
                "role" (VStr (role formData))) as (fields & Hf & Hl).
    { reflexivity. }
    exists fields. split; [exact Hf|]. rewrite Hl. simpl.
    list_mem; [left | right]; congruence.
Qed.

Lemma registration_role_is_buyer_or_supplier_witness :
  RegisterForm_reaches (with_role "supplier" RegisterForm_initial) ∧
  role (with_role "supplier" RegisterForm_initial) ∈ ["buyer"; "supplier"].
Proof.
  assert (H : RegisterForm_reaches (with_role "supplier" RegisterForm_initial)).
  { apply rtc_once. exists (VStr ""), false. unfold RegisterForm.
    eapply fires_in_El; [apply list_elem_of_here|].
    eapply fires_in_El; [apply list_elem_of_further, list_elem_of_here|].
    eapply fires_in_Form; [apply list_elem_of_here|].
    eapply fires_in_El; [do 5 apply list_elem_of_further; apply list_elem_of_here|].
    apply (fires_select _ _
             (fun v => SetFormData (with_role v RegisterForm_initial)) "supplier").
    simpl. is_mem. }
  split; [exact H|].
  exact (proj1 (registration_role_is_buyer_or_supplier Sample.host Sample.accepting
                  _ H)).
Defined.

(** ** The dashboard *)

#[local] Hint Constructors contains : views.





(** ** Signing in *)

(** What a run of AuthProvider's effect does when there is a token: either
    [/me] yields a payload with an [id], which becomes the user, or the
    token is dropped from the state and from storage.  In the second case
    [user] is left as it was. *)
Lemma AuthProvider_effect_cases host server st storage :
  ToBoolean (token st) = true →
  ∃ st' storage' t,
    AuthProvider_effect host server st storage = (st', storage', t) ∧
    loading st' = false ∧
    ((∃ id, Get (user st') "id" = Some id ∧ ToBoolean id = true ∧
            token st' = token st ∧ storage' = storage) ∨
     (user st' = user st ∧ token st' = VNull ∧ getItem storage' "token" = None)).
Proof.
  intros Htoken. destruct st as [u tk ld due]. simpl in Htoken.
  unfold AuthProvider_effect. cbn [token user loading]. rewrite Htoken.
  assert (Hforget :
    ∀ st', setToken VNull {| user := u; token := tk; loading := ld; effect_due := st' |}
           = {| user := u; token := VNull; loading := ld; effect_due := true |}).
  { intros st'. destruct tk; done. }
  match goal with |- context [server ?r] => destruct (server r) as [e|response] end;
    [|destruct (json response) as [e|data];
      [|destruct (Get data "id") as [id|] eqn:Hid;
        [destruct (ToBoolean id) eqn:Hb|]]];
    (eexists _, _, _; split; [reflexivity|]);
    rewrite ?Hforget; (split; [done|]).
  3: { left. exists id. done. }
  all: right; split; [done|]; split; [done|]; apply lookup_delete_eq.
Qed.

(** When the application starts with a stored token that fails validation,
    the token is dropped, there is no user, and MainApp shows the login or
    the registration form. *)
Lemma invalid_token_at_start host server storage token_ st' storage' t v :
  getItem storage "token" = Some token_ → token_ ≠ "" →
  AuthProvider_effect host server (AuthProvider_mount storage) storage
    = (st', storage', t) →
  token st' = VNull →
  user st' = VNull ∧ getItem storage' "token" = None ∧
  MainApp host st' v
    = Some (El "div"
              [if showRegister v then
                 El "div"
                   [RegisterForm (formData v) (register_error v)
                      (register_success v) (register_loading v);
                    El "div" [Button (SetShowRegister false)
                                [Text "Already have an account? Sign in"]]]
               else
                 El "div"
                   [LoginForm (login_email v) (login_password v)
                      (login_error v) (login_loading v);
                    El "div" [Button (SetShowRegister true)
                                [Text "Don't have an account? Register"]]]]).
Proof.
  intros Hstored Hne Heffect Hdropped.
  destruct (AuthProvider_effect_cases host server (AuthProvider_mount storage) storage)
    as (st'' & storage'' & t'' & Heffect' & Hloading & Hcases).
  { unfold AuthProvider_mount. rewrite Hstored. simpl.
    by apply negb_true_iff, String.eqb_neq. }
  rewrite Heffect in Heffect'. injection Heffect' as <- <- <-.
  destruct Hcases as [(id & _ & _ & Hkept & _) | (Huser & _ & Hgone)].
  - rewrite Hdropped in Hkept. unfold AuthProvider_mount in Hkept.
    rewrite Hstored in Hkept. discriminate.
  - split; [done|]. split; [done|].
    unfold MainApp. rewrite Hloading, Huser. done.
Qed.

(** C8.  A session in which validation fails and the user stays signed in.
    The application starts without a token; the buyer logs in, which stores
    the token ["t"] and sets the user; the token having changed, the effect
    validates it, and the [/me] request is rejected.  The token is removed
    from the state and from storage, but nothing resets the user: MainApp
    goes on rendering the header and the navigation for the buyer. *)
Theorem failed_validation_keeps_user_signed_in :
  let server := Sample.login_only in
  let st0 := AuthProvider_mount ∅ in
  let '(st1, storage1, _) := AuthProvider_effect Sample.host server st0 ∅ in
  let '(st2, storage2, _) := login Sample.host server "jo@acme.test" "secret" st1 storage1 in
  let '(st3, storage3, t3) := AuthProvider_effect Sample.host server st2 storage2 in
  let '(st4, storage4, _) := AuthProvider_effect Sample.host server st3 storage3 in
  (effect_due st1 = false ∧ user st1 = VNull ∧ loading st1 = false) ∧
  (effect_due st2 = true ∧ token st2 = VStr "t" ∧ getItem storage2 "token" = Some "t" ∧
   user st2 = Sample.buyer) ∧
  (t3 = [Fetch {| url := "http://localhost:8001/api/me"; method := "GET";
                  headers := {[ "Authorization" := "Bearer t" ]}; body := None |}] ∧
   token st3 = VNull ∧ getItem storage3 "token" = None ∧ effect_due st3 = true) ∧
  (effect_due st4 = false ∧ loading st4 = false ∧ token st4 = VNull ∧
   getItem storage4 "token" = None ∧ user st4 = Sample.buyer) ∧
  ∀ v, MainApp Sample.host st4 v
       = (header ← Header Sample.buyer;
          navigation ← Navigation Sample.host Sample.buyer (currentView v) (content v);
          Some (El "div" [header; navigation])).
Proof. vm_compute. repeat split. Qed.

(* ===================================================================== *)
(** * Further properties of the source                                    *)
(* ===================================================================== *)

(** ** [apiCall] and the session *)

Lemma SameValue_eq a b : SameValue a b = true → a = b.
Proof.
  destruct a, b; simpl; try discriminate; try done.
  - intros H. f_equal. by apply Bool.eqb_prop.
  - destruct n, n0; try discriminate; try done.
    + intros H. do 2 f_equal. by apply Bool.eqb_prop.
    + intros H. do 2 f_equal. by apply Bool.eqb_prop.
    + intros [[H1 H2%Pos.eqb_eq]%andb_true_iff H3%Z.eqb_eq]%andb_true_iff.
      apply Bool.eqb_prop in H1. by subst.
  - intros H%String.eqb_eq. by subst.
Qed.

Lemma apiCall_request host storage server endpoint options request :
  Fetch request ∈ trace (apiCall host storage server endpoint options) →
  request
  = {| url := API host ++ endpoint;
       method := default "GET" (opt_method options);
       headers := match opt_headers options with
                  | Some h => h
                  | None =>
                      if Answer_truthy (getItem storage "token")
                      then {[ "Content-Type" := "application/json";
                              "Authorization" :=
                                "Bearer " ++ default "" (getItem storage "token") ]}
                      else {[ "Content-Type" := "application/json" ]}
                  end;
       body := opt_body options |}.
Proof.
  unfold apiCall. cbv zeta.
  match goal with |- context [server ?r] => destruct (server r) as [e|response] end;
    [|destruct (ok response); [destruct (json response)|]];
    run_cmd; intros Hin; list_mem; done.
Qed.

(** X1.  The headers [apiCall] sends when its caller passes none: always
    [Content-Type: application/json]; [Authorization: Bearer <token>] exactly
    when [localStorage] holds a non-empty token; and nothing else. *)
Theorem apiCall_headers host storage server endpoint options request :
  opt_headers options = None →
  Fetch request ∈ trace (apiCall host storage server endpoint options) →
  headers request !! "Content-Type" = Some "application/json" ∧
  headers request !! "Authorization"
    = match getItem storage "token" with
      | Some t => if String.eqb t "" then None else Some ("Bearer " ++ t)
      | None => None
      end ∧
  ∀ k, k ≠ "Content-Type" → k ≠ "Authorization" → headers request !! k = None.
Proof.
  intros Hnone ->%apiCall_request. rewrite Hnone. simpl.
  destruct (getItem storage "token") as [t|]; simpl.
  - destruct (String.eqb t ""); simpl.
    + split; [done|]. split; [done|]. intros k Hc _. by rewrite lookup_singleton_ne.
    + split; [done|]. split; [done|]. intros k Hc Ha.
      rewrite lookup_insert_ne by done. by rewrite lookup_singleton_ne.
  - split; [done|]. split; [done|]. intros k Hc _. by rewrite lookup_singleton_ne.
Qed.

Lemma apiCall_headers_witness :
  let request :=
    {| url := "http://localhost:8001/api/products"; method := "GET";
       headers := {[ "Content-Type" := "application/json";
                     "Authorization" := "Bearer t" ]};
       body := None |} in
  opt_headers no_options = None ∧
  Fetch request
    ∈ trace (apiCall Sample.host {[ "token" := "t" ]} Sample.accepting "/products"
               no_options) ∧
  headers request !! "Authorization" = Some "Bearer t".
Proof.
  intros request.
  assert (Hin : Fetch request
                  ∈ trace (apiCall Sample.host {[ "token" := "t" ]} Sample.accepting
                             "/products" no_options)).
  { vm_compute. left. }
  split; [reflexivity|]. split; [exact Hin|].
  exact (proj1 (proj2 (apiCall_headers Sample.host {[ "token" := "t" ]}
                         Sample.accepting "/products" no_options request
                         eq_refl Hin))).
Defined.

(** What MainApp shows to a visitor who is not signed in. *)
Lemma MainApp_signed_out host auth v :
  loading auth = false → ToBoolean (user auth) = false →
  MainApp host auth v
  = Some (El "div"
            [if showRegister v then
               El "div"
                 [RegisterForm (formData v) (register_error v)
                    (register_success v) (register_loading v);
                  El "div" [Button (SetShowRegister false)
                              [Text "Already have an account? Sign in"]]]
             else
               El "div"
                 [LoginForm (login_email v) (login_password v)
                    (login_error v) (login_loading v);
                  El "div" [Button (SetShowRegister true)
                              [Text "Don't have an account? Register"]]]]).
Proof. intros Hl Hu. unfold MainApp. by rewrite Hl, Hu. Qed.

Lemma signed_out_fires host auth v tree a :
  loading auth = false → ToBoolean (user auth) = false →
  MainApp host auth v = Some tree → fires tree a → form_action a.
Proof.
  intros Hl Hu. rewrite MainApp_signed_out by done. intros [= <-] Hf.
  destruct (showRegister v); fired; try done;
    match goal with
    | Hr : fires (RegisterForm _ _ _ _) _ |- _ =>
        apply RegisterForm_fires in Hr as [->|[->|[? ->]]]
    | Hl : fires (LoginForm _ _ _ _) _ |- _ =>
        apply LoginForm_fires in Hl as [->|[[? ->]|[? ->]]]
    end; done.
Qed.

Lemma signed_out_offers host auth v :
  loading auth = false → ToBoolean (user auth) = false →
  ∃ tree, MainApp host auth v = Some tree ∧ ∀ a, fires tree a → form_action a.
Proof.
  intros Hl Hu. pose proof (MainApp_signed_out host auth v Hl Hu) as Hm.
  eexists. split; [exact Hm|].
  intros a. exact (signed_out_fires host auth v _ a Hl Hu Hm).
Qed.



(** ** Logging in *)

(** [login] either succeeds, on an ok response whose body is not [null], and
    then sets the token, the user and the stored token; or it changes
    nothing. *)
Lemma login_cases host server email password st storage :
  (∃ t access_token u,
     login host server email password st storage
     = (setUser u (setToken access_token st),
        setItem "token" (ToString host access_token) storage,
        (t, inr {| success := true; error := VUndefined |}))) ∨
  (∃ t r,
     login host server email password st storage = (st, storage, (t, r)) ∧
     ∀ res, r = inr res → success res = false).
Proof.
  unfold login. cbv zeta.
  match goal with |- context [server ?r] => destruct (server r) as [e|response] end.
  { right. eexists _, _. split; [reflexivity|]. intros ? [=]. }
  destruct (ok response); (destruct (json response) as [e|data];
    [right; eexists _, _; split; [reflexivity|]; intros ? [=]|]).
  - destruct (Get data "access_token") as [access_token|],
             (Get data "user") as [u|];
      try (right; eexists _, _; split; [reflexivity|]; intros ? [=]).
    left. by eexists _, _, _.
  - destruct (Get data "detail") as [detail|];
      right; eexists _, _; (split; [reflexivity|]); intros ? [=]. by subst.
Qed.



(** X4.  After a successful login whose access token is a non-empty string,
    the token is in [localStorage] as it came, and [apiCall] sends it as
    [Authorization: Bearer <token>] for as long as storage stays as login
    left it.  A token that differs from the one held makes the validation
    effect due.  That run asks [/me] with the token; storage is kept exactly
    when the answer is a body with a truthy [id], and otherwise the token is
    removed and [apiCall] sends no [Authorization] header any more. *)
Theorem login_then_requests_carry_token
    host server email password st storage st' storage' t res tok :
  login host server email password st storage = (st', storage', (t, inr res)) →
  success res = true → token st' = VStr tok → tok ≠ "" →
  getItem storage' "token" = Some tok ∧
  (∀ server' endpoint options request,
     opt_headers options = None →
     Fetch request ∈ trace (apiCall host storage' server' endpoint options) →
     headers request !! "Authorization" = Some ("Bearer " ++ tok)) ∧
  (token st ≠ VStr tok → effect_due st' = true) ∧
  ∀ server' st'' storage'' t',
    AuthProvider_effect host server' st' storage' = (st'', storage'', t') →
    let me :=
      {| url := API host ++ "/me"; method := "GET";
         headers := {[ "Authorization" := "Bearer " ++ tok ]}; body := None |} in
    t' = [Fetch me] ∧
    ((storage'' = storage' ∧
      ∃ response data id,
        server' me = Resolved response ∧ json response = inr data ∧
        Get data "id" = Some id ∧ ToBoolean id = true) ∨
     (storage'' = removeItem "token" storage' ∧
      (∀ response data id,
         server' me = Resolved response → json response = inr data →
         Get data "id" = Some id → ToBoolean id = false) ∧
      ∀ server2 endpoint options request,
        opt_headers options = None →
        Fetch request ∈ trace (apiCall host storage'' server2 endpoint options) →
        headers request !! "Authorization" = None)).
Proof.
  intros Hlogin Hsuccess Htoken Hne.
  destruct (login_cases host server email password st storage)
    as [(t0 & access_token & u & H) | (t0 & r0 & H & Hfail)];
    rewrite H in Hlogin; injection Hlogin as <- <- <- Hr; cycle 1.
  { subst r0. specialize (Hfail _ eq_refl). congruence. }
  assert (access_token = VStr tok) as ->.
  { simpl in Htoken. unfold setToken in Htoken.
    destruct (SameValue access_token (token st)) eqn:E; [|done].
    apply SameValue_eq in E. congruence. }
  change (ToString host (VStr tok)) with tok.
  assert (Hstored : getItem (setItem "token" tok storage) "token" = Some tok)
    by apply lookup_insert_eq.
  split; [exact Hstored|]. split; [|split].
  - intros server' endpoint options request Hnone Hin.
    rewrite (apiCall_request _ _ _ _ _ _ Hin). cbn [headers].
    rewrite Hnone, Hstored. simpl.
    apply String.eqb_neq in Hne. rewrite Hne. simpl.
    rewrite lookup_insert_ne by done. apply lookup_singleton_eq.
  - intros Hnew. simpl. unfold setToken.
    destruct (SameValue (VStr tok) (token st)) eqn:E; [|done].
    apply SameValue_eq in E. congruence.
  - intros server' st'' storage'' t' Heffect me.
    destruct (setUser u (setToken (VStr tok) st)) as [u1 tk1 ld1 due1].
    cbn [token] in Htoken. subst tk1.
    unfold AuthProvider_effect in Heffect.
    cbn [token user loading ToBoolean ToString] in Heffect.
    apply String.eqb_neq in Hne. rewrite Hne in Heffect. cbn [negb] in Heffect.
    fold me in Heffect.
    assert (Hdropped : ∀ server2 endpoint options request,
              opt_headers options = None →
              Fetch request
                ∈ trace (apiCall host (removeItem "token" (setItem "token" tok storage))
                           server2 endpoint options) →
              headers request !! "Authorization" = None).
    { intros server2 endpoint options request Hnone Hin.
      rewrite (apiCall_request _ _ _ _ _ _ Hin). cbn [headers]. rewrite Hnone.
      unfold removeItem, getItem. rewrite lookup_delete_eq. done. }
    destruct (server' me) as [e|response].
    { injection Heffect as <- <- <-. split; [done|]. right.
      split; [done|]. split; [intros ? ? ? [=]|exact Hdropped]. }
    destruct (json response) as [e|data] eqn:Hjson.
    { injection Heffect as <- <- <-. split; [done|]. right.
      split; [done|]. split; [|exact Hdropped].
      intros ? ? ? [= <-]. congruence. }
    destruct (Get data "id") as [id|] eqn:Hid; cycle 1.
    { injection Heffect as <- <- <-. split; [done|]. right.
      split; [done|]. split; [|exact Hdropped].
      intros ? ? ? [= <-] ?. congruence. }
    destruct (ToBoolean id) eqn:Hb.
    + injection Heffect as <- <- <-. split; [done|]. left. split; [done|]. eauto 10.
    + injection Heffect as <- <- <-. split; [done|]. right.
      split; [done|]. split; [|exact Hdropped].
      intros ? ? ? [= <-] ? ?. congruence.
Qed.

Lemma login_then_requests_carry_token_witness :
  let st' := {| user := Sample.buyer; token := VStr "t"; loading := true;
                effect_due := true |} in
  let st'' := {| user := Sample.buyer; token := VNull; loading := false;
                 effect_due := true |} in
  let me := {| url := "http://localhost:8001/api/me"; method := "GET";
               headers := {[ "Authorization" := "Bearer t" ]}; body := None |} in
  ∃ t,
    login Sample.host Sample.login_only "jo@acme.test" "secret"
      (AuthProvider_mount ∅) ∅
    = (st', {[ "token" := "t" ]}, (t, inr {| success := true; error := VUndefined |})) ∧
    getItem ({[ "token" := "t" ]} : Storage) "token" = Some "t" ∧
    effect_due st' = true ∧
    AuthProvider_effect Sample.host Sample.login_only st' {[ "token" := "t" ]}
    = (st'', ∅, [Fetch me]) ∧
    ∀ endpoint request,
      Fetch request ∈ trace (apiCall Sample.host ∅ Sample.accepting endpoint no_options) →
      headers request !! "Authorization" = None.
Proof.
  intros st' st'' me. eexists.
  assert (Hlogin : login Sample.host Sample.login_only "jo@acme.test" "secret"
                     (AuthProvider_mount ∅) ∅
                   = (st', {[ "token" := "t" ]},
                      (_, inr {| success := true; error := VUndefined |})))
    by (vm_compute; reflexivity).
  assert (Heffect : AuthProvider_effect Sample.host Sample.login_only st'
                      {[ "token" := "t" ]} = (st'', ∅, [Fetch me]))
    by (vm_compute; reflexivity).
  assert (Hne : "t" ≠ "") by discriminate.
  destruct (login_then_requests_carry_token Sample.host Sample.login_only
              "jo@acme.test" "secret" (AuthProvider_mount ∅) ∅ st'
              {[ "token" := "t" ]} _ _ "t" Hlogin eq_refl eq_refl Hne)
    as (Hstored & _ & Hdue & Hvalidation).
  split; [exact Hlogin|]. split; [exact Hstored|].
  split; [apply Hdue; discriminate|]. split; [exact Heffect|].
  destruct (Hvalidation _ _ _ _ Heffect) as [_ [[Hkept _] | (_ & _ & Hnone)]].
  - apply (f_equal (fun m : Storage => m !! "token")) in Hkept. discriminate Hkept.
  - intros endpoint request. by apply Hnone.
Defined.

(** ** Validating the stored token *)

(** X5.  Starting without a usable token: when [localStorage] holds no
    token, or an empty one, the effect sends nothing and leaves storage
    alone; there is no user, loading ends, no further run is due, and
    MainApp offers only the login and registration forms. *)
Theorem start_without_token host server storage :
  Answer_truthy (getItem storage "token") = false →
  ∃ st',
    AuthProvider_effect host server (AuthProvider_mount storage) storage
      = (st', storage, []) ∧
    user st' = VNull ∧ loading st' = false ∧ effect_due st' = false ∧
    ∀ v, ∃ tree, MainApp host st' v = Some tree ∧ ∀ a, fires tree a → form_action a.
Proof.
  intros Hnone. unfold AuthProvider_effect, AuthProvider_mount. cbn [token user loading].
  assert (Hfalsy : ToBoolean (match getItem storage "token" with
                              | Some t => VStr t | None => VNull end) = false).
  { destruct (getItem storage "token"); done. }
  rewrite Hfalsy. eexists. split; [reflexivity|]. repeat split.
  intros v. by apply signed_out_offers.
Qed.

Lemma start_without_token_witness :
  Answer_truthy (getItem ({[ "token" := "" ]} : Storage) "token") = false ∧
  ∃ st',
    AuthProvider_effect Sample.host Sample.accepting
      (AuthProvider_mount {[ "token" := "" ]}) {[ "token" := "" ]}
      = (st', {[ "token" := "" ]}, []) ∧
    user st' = VNull ∧ loading st' = false.
Proof.
  assert (Hnone : Answer_truthy (getItem ({[ "token" := "" ]} : Storage) "token")
                  = false) by reflexivity.
  split; [exact Hnone|].
  destruct (start_without_token Sample.host Sample.accepting {[ "token" := "" ]}
              Hnone) as (st' & He & Hu & Hl & _).
  exists st'. split; [exact He|]. split; [exact Hu | exact Hl].
Defined.

(** X6.  Validation looks at the payload only: whenever the [/me] request
    resolves to a body with a truthy [id], that body becomes the user, the
    token and storage are kept and loading ends, whether the response is ok
    or not. *)
Theorem validation_reads_only_the_payload
    host server st storage response data id :
  let request :=
    {| url := API host ++ "/me"; method := "GET";
       headers := {[ "Authorization" := "Bearer " ++ ToString host (token st) ]};
       body := None |} in
  ToBoolean (token st) = true →
  server request = Resolved response →
  json response = inr data → Get data "id" = Some id → ToBoolean id = true →
  AuthProvider_effect host server st storage
  = ({| user := data; token := token st; loading := false; effect_due := false |},
     storage, [Fetch request]).
Proof.
  intros request Htoken Hanswer Hjson Hid Htruthy.
  unfold AuthProvider_effect. cbn [token user loading]. rewrite Htoken.
  fold request. rewrite Hanswer, Hjson, Hid, Htruthy. reflexivity.
Qed.

Lemma validation_reads_only_the_payload_witness :
  let server : Server :=
    fun _ => Resolved {| ok := false; statusText := "Unauthorized";
                         json := inr Sample.buyer |} in
  let st := {| user := VNull; token := VStr "t"; loading := true; effect_due := true |} in
  ToBoolean (token st) = true ∧
  AuthProvider_effect Sample.host server st {[ "token" := "t" ]}
  = ({| user := Sample.buyer; token := VStr "t"; loading := false;
        effect_due := false |},
     {[ "token" := "t" ]},
     [Fetch {| url := "http://localhost:8001/api/me"; method := "GET";
               headers := {[ "Authorization" := "Bearer t" ]}; body := None |}]).
Proof.
  intros server st. split; [reflexivity|].
  exact (validation_reads_only_the_payload Sample.host server st {[ "token" := "t" ]}
           {| ok := false; statusText := "Unauthorized"; json := inr Sample.buyer |}
           Sample.buyer (VStr "u1") eq_refl eq_refl eq_refl eq_refl eq_refl).
Defined.

(** X7.  The effect cannot loop.  A run makes another run due only by
    dropping the token; that second run finds no token, sends nothing,
    changes neither the user nor storage, and leaves no run due. *)
Theorem validation_effect_settles host server server' st storage st1 storage1 t1 :
  AuthProvider_effect host server st storage = (st1, storage1, t1) →
  effect_due st1 = true →
  token st1 = VNull ∧ getItem storage1 "token" = None ∧
  AuthProvider_effect host server' st1 storage1
  = ({| user := user st1; token := VNull; loading := false; effect_due := false |},
     storage1, []).
Proof.
  destruct st as [u tk ld due]. unfold AuthProvider_effect. cbn [token user loading].
  destruct (ToBoolean tk) eqn:Htoken.
  - match goal with |- context [server ?r] => destruct (server r) as [e|response] end;
      [|destruct (json response) as [e|data];
        [|destruct (Get data "id") as [id|];
          [destruct (ToBoolean id)|]]];
      intros [= <- <- <-]; try discriminate;
      destruct tk; try discriminate Htoken; simpl; intros _;
      (split; [done|]); (split; [apply lookup_delete_eq|]); reflexivity.
  - intros [= <- <- <-]. discriminate.
Qed.

Lemma validation_effect_settles_witness :
  let st := {| user := VNull; token := VStr "t"; loading := true; effect_due := true |} in
  let st1 := {| user := VNull; token := VNull; loading := false; effect_due := true |} in
  let t1 := [Fetch {| url := "http://localhost:8001/api/me"; method := "GET";
                      headers := {[ "Authorization" := "Bearer t" ]}; body := None |}] in
  AuthProvider_effect Sample.host Sample.login_only st {[ "token" := "t" ]}
    = (st1, ∅, t1) ∧
  effect_due st1 = true ∧
  AuthProvider_effect Sample.host Sample.accepting st1 ∅
  = ({| user := VNull; token := VNull; loading := false; effect_due := false |}, ∅, []).
Proof.
  intros st st1 t1.
  assert (He : AuthProvider_effect Sample.host Sample.login_only st {[ "token" := "t" ]}
               = (st1, ∅, t1)) by (vm_compute; reflexivity).
  split; [exact He|]. split; [reflexivity|].
  exact (proj2 (proj2 (validation_effect_settles Sample.host Sample.login_only
                         Sample.accepting st {[ "token" := "t" ]} st1 ∅ t1 He eq_refl))).
Defined.

(** ** What each session state offers *)

(** X8.  MainApp keeps the two worlds apart.  Whatever it renders, an action
    can be triggered only once loading has ended; for a signed-in user it is
    never an action of the login or registration forms, and for a visitor it
    is nothing but such an action: no logout, no navigation, no RFQ and no
    quote. *)
Theorem MainApp_offers_by_session host auth v tree a :
  MainApp host auth v = Some tree → fires tree a →
  loading auth = false ∧
  if ToBoolean (user auth) then ¬ form_action a else form_action a.
Proof.
  intros Htree Hf. destruct (loading auth) eqn:Hl.
  { unfold MainApp in Htree. rewrite Hl in Htree. injection Htree as <-. by fired. }
  split; [done|]. destruct (ToBoolean (user auth)) eqn:Hu.
  - unfold MainApp in Htree. rewrite Hl, Hu in Htree. succeeded Htree. fired.
    + match goal with E : Header _ = Some ?h, Hh : fires ?h _ |- _ =>
        rewrite (Header_fires _ _ _ E Hh) end. simpl. tauto.
    + match goal with E : Navigation _ _ _ _ = Some ?n, Hn : fires ?n _ |- _ =>
        destruct (Navigation_fires _ _ _ _ _ _ E Hn)
          as [(items & item & _ & _ & ->) | (content & Hc & Hfc)] end;
        [simpl; tauto|].
      destruct (render_fires _ _ _ _ _ _ Hc Hfc) as [[? ->] | [? ->]]; simpl; tauto.
  - by eapply signed_out_fires.
Qed.

Lemma MainApp_offers_by_session_witness :
  ∃ tree,
    MainApp Sample.host (Sample.signed_in Sample.buyer)
      (Sample.views "products" Sample.loaded_content) = Some tree ∧
    fires tree Logout ∧
    loading (Sample.signed_in Sample.buyer) = false ∧
    ¬ form_action Logout.
Proof.
  eexists. split; [vm_compute; reflexivity|].
  match goal with |- fires ?t _ ∧ _ =>
    assert (Hf : fires t Logout) by fire;
    pose proof (MainApp_offers_by_session Sample.host (Sample.signed_in Sample.buyer)
                  (Sample.views "products" Sample.loaded_content) t Logout
                  eq_refl Hf) as [Hl Hn]
  end.
  split; [exact Hf|]. split; [exact Hl | exact Hn].
Defined.


(** ** The dashboard's counters *)

(** Take an occurrence apart, down to the element that occurs. *)
Ltac contained :=
  repeat match goal with
  | H : contains (Text _) _ |- _ => inversion H; subst; clear H
  | H : contains (Expr _) _ |- _ => inversion H; subst; clear H
  | H : contains (El _ _) _ |- _ => inversion H; subst; clear H
  | H : contains (Fragment _) _ |- _ => inversion H; subst; clear H
  | H : _ ∈ [] |- _ => by apply elem_of_nil in H
  | H : _ ∈ _ :: _ |- _ => apply elem_of_cons in H as [->|H]
  end.

(** X10.  The dashboard shows a user the counters of the user's own role and
    no others: every counter box on the page belongs to the role, and shows
    the value of its property of [stats] when that is truthy, and [0]
    otherwise. *)
Theorem Dashboard_shows_own_counters user stats page title value :
  Dashboard user stats false = Some page →
  contains page (stat_card title value) →
  ∃ role_ key raw,
    Get user "role" = Some (VStr role_) ∧
    (role_, title, key) ∈ dashboard_counters ∧
    Get stats key = Some raw ∧
    value = (if ToBoolean raw then raw else zero).
Proof.
  unfold Dashboard, stat_card. intros H Hc. succeeded H;
    repeat match goal with
           | E : StrictEquals (VStr _) (VStr _) = _ |- _ =>
               simpl in E; first [discriminate E | clear E]
           | E : StrictEquals ?v (VStr _) = true |- _ =>
               is_var v; apply StrictEquals_VStr in E; subst v
           end;
    contained;
    unfold LogicalOr;
    (eexists _, _, _; split; [reflexivity|]; split;
       [unfold dashboard_counters; is_mem|]; split; [eassumption|reflexivity]).
Qed.

Lemma Dashboard_shows_own_counters_witness :
  let stats := VObj {[ "my_rfqs" := VNum (Number_of_Z 3);
                       "total_users" := VNum (Number_of_Z 9) ]} in
  ∃ page,
    Dashboard Sample.buyer stats false = Some page ∧
    contains page (stat_card "My RFQs" (VNum (Number_of_Z 3))) ∧
    ∃ role_ key raw,
      Get Sample.buyer "role" = Some (VStr role_) ∧
      (role_, "My RFQs", key) ∈ dashboard_counters ∧
      Get stats key = Some raw ∧
      VNum (Number_of_Z 3) = (if ToBoolean raw then raw else zero).
Proof.
  intros stats. eexists. split; [vm_compute; reflexivity|].
  match goal with |- contains ?p ?c ∧ _ =>
    assert (Hc : contains p c) by (vm_compute; fire);
    split; [exact Hc|];
    exact (Dashboard_shows_own_counters Sample.buyer stats p "My RFQs" _ eq_refl Hc)
  end.
Defined.

(** X11.  A statistics body that is [null] is not tolerated.  If the request
    is answered by the JSON value [null], the effect stores it, and once
    loading has ended the dashboard of an admin, a supplier or a buyer fails
    to render, while it still renders for a user of any other role. *)
Theorem Dashboard_fails_on_null_stats host storage server user role_ :
  outcome (apiCall host storage server "/dashboard/stats" no_options) = inr VNull →
  Get user "role" = Some role_ →
  (Dashboard_effect host storage server (VObj ∅)).1 = (VNull, false) ∧
  (Dashboard user VNull false = None ↔
   role_ = VStr "admin" ∨ role_ = VStr "supplier" ∨ role_ = VStr "buyer").
Proof.
  intros Hout Hrole. split.
  - unfold Dashboard_effect.
    destruct (apiCall host storage server "/dashboard/stats" no_options) as [t r].
    simpl in Hout. by subst r.
  - assert (Hc : is_Some (Get user "contact_person")).
    { destruct user; try discriminate; simpl; eauto. }
    destruct Hc as [c Hc]. unfold Dashboard. rewrite Hc, Hrole. simpl.
    destruct (StrictEquals role_ (VStr "admin")) eqn:Ea; simpl.
    { apply StrictEquals_VStr in Ea. split; auto. }
    destruct (StrictEquals role_ (VStr "supplier")) eqn:Es; simpl.
    { apply StrictEquals_VStr in Es. split; auto. }
    destruct (StrictEquals role_ (VStr "buyer")) eqn:Eb; simpl.
    { apply StrictEquals_VStr in Eb. split; auto. }
    split; [discriminate|].
    intros [ -> | [ -> | -> ] ]; simpl in *; discriminate.
Qed.

Lemma Dashboard_fails_on_null_stats_witness :
  let server : Server :=
    fun _ => Resolved {| ok := true; statusText := "OK"; json := inr VNull |} in
  outcome (apiCall Sample.host ∅ server "/dashboard/stats" no_options) = inr VNull ∧
  Get Sample.admin "role" = Some (VStr "admin") ∧
  Dashboard Sample.admin VNull false = None.
Proof.
  intros server.
  assert (Hout : outcome (apiCall Sample.host ∅ server "/dashboard/stats" no_options)
                 = inr VNull) by reflexivity.
  split; [exact Hout|]. split; [reflexivity|].
  apply (proj2 (Dashboard_fails_on_null_stats Sample.host ∅ server Sample.admin
                  (VStr "admin") Hout eq_refl)).
  by left.
Defined.

(** ** The product and RFQ lists *)

Lemma mapM_elem_of {A B} (f : A → option B) l k x :
  mapM f l = Some k → x ∈ l → ∃ y, f x = Some y ∧ y ∈ k.
Proof.
  intros H%mapM_Some_1. induction H as [|x' y' l k Hxy _ IH]; intros Hx.
  - by apply elem_of_nil in Hx.
  - apply elem_of_cons in Hx as [->|Hx].
    + exists y'. split; [done|left].
    + destruct (IH Hx) as (y & ? & ?). exists y. split; [done|by right].
Qed.

(** X12.  For a buyer, the product list offers a quote request for every
    product it shows, carrying that product's own id, and for nothing else. *)
Theorem ProductList_offers_each_product user elems categories tree id :
  ProductList user (VArr elems) categories false = Some tree →
  Get user "role" = Some (VStr "buyer") →
  (fires tree (CreateRFQ id) ↔ ∃ product, product ∈ elems ∧ Get product "id" = Some id).
Proof.
  intros Htree Hrole. split.
  - intros Hf.
    destruct (ProductList_fires _ _ _ _ _ _ Htree Hf)
      as (_ & elems' & product & id' & [= <-] & Hin & Hid & [= <-]).
    eauto.
  - intros (product & Hin & Hid).
    unfold ProductList, Array_map in Htree. succeeded Htree.
    match goal with E : mapM _ _ = Some _ |- _ =>
      destruct (mapM_elem_of _ _ _ _ E Hin) as (card & Hcard & Hk) end.
    eapply fires_in_El; [apply list_elem_of_further, list_elem_of_here|].
    eapply fires_in_El; [exact Hk|].
    unfold ProductCard in Hcard. succeeded Hcard.
    simplify_eq. unfold And. simpl. fire.
Qed.

Lemma ProductList_offers_each_product_witness :
  ∃ tree,
    ProductList Sample.buyer (VArr [Sample.product]) (VArr []) false = Some tree ∧
    Get Sample.buyer "role" = Some (VStr "buyer") ∧
    fires tree (CreateRFQ (VStr "p1")).
Proof.
  eexists. split; [vm_compute; reflexivity|]. split; [reflexivity|].
  match goal with |- fires ?t _ =>
    apply (proj2 (ProductList_offers_each_product Sample.buyer [Sample.product]
                    (VArr []) t (VStr "p1") eq_refl eq_refl)) end.
  exists Sample.product. split; [left|reflexivity].
Defined.

(** X13.  For a supplier, the RFQ list offers a quote on exactly the RFQs
    it shows whose status is ['open'], each with its own id. *)
Theorem RFQList_offers_each_open_RFQ host user elems products tree id :
  RFQList host user (VArr elems) products false = Some tree →
  Get user "role" = Some (VStr "supplier") →
  (fires tree (SubmitQuote id) ↔
   ∃ rfq, rfq ∈ elems ∧ Get rfq "status" = Some (VStr "open") ∧
          Get rfq "id" = Some id).
Proof.
  intros Htree Hrole. split.
  - intros Hf.
    destruct (RFQList_fires _ _ _ _ _ _ _ Htree Hf)
      as (_ & elems' & rfq & id' & [= <-] & Hin & Hst & Hid & [= <-]).
    eauto.
  - intros (rfq & Hin & Hst & Hid).
    unfold RFQList, Array_map in Htree. succeeded Htree.
    match goal with E : mapM _ _ = Some _ |- _ =>
      destruct (mapM_elem_of _ _ _ _ E Hin) as (card & Hcard & Hk) end.
    eapply fires_in_El; [apply list_elem_of_further, list_elem_of_here|].
    eapply fires_in_El; [exact Hk|].
    unfold RFQCard in Hcard. succeeded Hcard.
    simplify_eq. unfold And. simpl. destruct (ToBoolean _); fire.
Qed.

Lemma RFQList_offers_each_open_RFQ_witness :
  ∃ tree,
    RFQList Sample.host Sample.supplier (VArr [Sample.open_rfq]) (VArr []) false
      = Some tree ∧
    Get Sample.supplier "role" = Some (VStr "supplier") ∧
    fires tree (SubmitQuote (VStr "r1")).
Proof.
  eexists. split; [vm_compute; reflexivity|]. split; [reflexivity|].
  match goal with |- fires ?t _ =>
    apply (proj2 (RFQList_offers_each_open_RFQ Sample.host Sample.supplier
                    [Sample.open_rfq] (VArr []) t (VStr "r1") eq_refl eq_refl)) end.
  exists Sample.open_rfq. split; [left|]. split; reflexivity.
Defined.















Lemma ProductCard_null user categories : ProductCard user categories VNull = None.
Proof.
  unfold ProductCard, Array_find. destruct categories as [| | | | | elems |]; try done.
  destruct elems as [|c elems]; simpl; [done|].
  destruct (Get c "id"); done.
Qed.

Lemma RFQCard_null host user products : RFQCard host user products VNull = None.
Proof.
  unfold RFQCard, Array_find. destruct products as [| | | | | elems |]; try done.
  destruct elems as [|c elems]; simpl; [done|].
  destruct (Get c "id"); done.
Qed.

Lemma mapM_None_elem {A B} (f : A → option B) l x :
  x ∈ l → f x = None → mapM f l = None.
Proof.
  intros Hx Hf. destruct (mapM f l) as [k|] eqn:E; [|done].
  destruct (mapM_elem_of _ _ _ _ E Hx) as (y & Hy & _). congruence.
Qed.

(** X15.  On malformed data the lists fail as a whole: when the collection
    to show is not an array, or is an array with a [null] in it, neither
    list renders once loading has ended, whatever the other data; while
    loading, both show their placeholder regardless. *)
Theorem lists_fail_on_malformed_data host user collection others :
  (∀ elems, collection ≠ VArr elems) ∨
  (∃ elems, collection = VArr elems ∧ VNull ∈ elems) →
  ProductList user collection others false = None ∧
  RFQList host user collection others false = None ∧
  ProductList user collection others true = Some (El "div" [Text "Loading products..."]) ∧
  RFQList host user collection others true = Some (El "div" [Text "Loading RFQs..."]).
Proof.
  intros Hbad. split; [|split; [|done]].
  - unfold ProductList, Array_map. destruct Hbad as [Hno | (elems & -> & Hnull)].
    + destruct collection; try done. by destruct (Hno elems).
    + by rewrite (mapM_None_elem _ _ _ Hnull (ProductCard_null user others)).
  - unfold RFQList, Array_map. destruct (Get user "role"); simpl; [|done].
    destruct Hbad as [Hno | (elems & -> & Hnull)].
    + destruct collection; try done. by destruct (Hno elems).
    + by rewrite (mapM_None_elem _ _ _ Hnull (RFQCard_null host user others)).
Qed.

Lemma lists_fail_on_malformed_data_witness :
  (∃ elems, VArr [Sample.product; VNull] = VArr elems ∧ VNull ∈ elems) ∧
  ProductList Sample.buyer (VArr [Sample.product; VNull]) (VArr []) false = None.
Proof.
  assert (H : ∃ elems, VArr [Sample.product; VNull] = VArr elems ∧ VNull ∈ elems).
  { eexists. split; [reflexivity|]. right. left. }
  split; [exact H|].
  exact (proj1 (lists_fail_on_malformed_data Sample.host Sample.buyer
                  (VArr [Sample.product; VNull]) (VArr []) (or_intror H))).
Defined.

(** ** Where Navigation can go *)

(** X16.  The views Navigation can come to show are the dashboard, where it
    starts, and the keys of the items whose roles include the user's role.
    In particular a user whose role is none of the three stays on the
    dashboard. *)
Theorem Navigation_reaches_offered_views host user role_ view :
  Get user "role" = Some role_ →
  (Navigation_reaches host user view ↔
   view = "dashboard" ∨
   ∃ item, item ∈ navItems ∧ key item = view ∧ ∃ r, r ∈ roles item ∧ role_ = VStr r).
Proof.
  intros Hrole.
  destruct (filteredNavItems_keys user role_ Hrole) as (items & Hitems & Hspec).
  split.
  - intros Hreach. apply rtc_inv_r in Hreach as [<- | (view0 & _ & Hstep)]; [by left|].
    destruct (Navigation_step_offered _ _ _ _ Hstep)
      as (items' & item & Hitems' & Hin & ->).
    assert (items' = items) as -> by congruence.
    apply Hspec in Hin as (Hnav & Hr). right. eauto.
  - intros [-> | (item & Hnav & <- & Hr)]; [apply rtc_refl|].
    destruct (Navigation_mounts host user role_ Hrole) as [tree Htree].
    apply rtc_once. exists Sample.loading_content, tree. split; [done|].
    eapply Navigation_offers; [done..|]. apply Hspec. by split.
Qed.

Lemma Navigation_reaches_offered_views_witness :
  Get Sample.admin "role" = Some (VStr "admin") ∧
  (Navigation_reaches Sample.host Sample.admin "orders" ↔
   "orders" = "dashboard" ∨
   ∃ item, item ∈ navItems ∧ key item = "orders" ∧
           ∃ r, r ∈ roles item ∧ VStr "admin" = VStr r).
Proof.
  split; [reflexivity|].
  exact (Navigation_reaches_offered_views Sample.host Sample.admin (VStr "admin")
           "orders" eq_refl).
Defined.

(** ** Loading the lists *)



(** ** What the commands send *)

Lemma submitQuote_held_back host storage server rfqId price delivery answer :
  Answer_truthy price = false ∨ Answer_truthy delivery = false →
  submitQuote host storage server rfqId price delivery answer = ([], inr tt).
Proof.
  unfold submitQuote, Answer_truthy.
  destruct price as [p|], delivery as [d|]; try done.
  intros [-> | ->]; [done|]. by rewrite andb_false_r.
Qed.

Lemma Answer_truthy_Some a : Answer_truthy a = true → ∃ s, a = Some s ∧ s ≠ "".
Proof.
  destruct a as [s|]; [|done]. simpl. intros H%negb_true_iff%String.eqb_neq. eauto.
Qed.

(** X18.  [submitQuote] reloads the page exactly when its request was sent
    and succeeded; after a failure, or when nothing was sent, the page stays
    as it is. *)
Theorem submitQuote_reloads_on_success_only
    host storage server rfqId price delivery answer :
  Reload ∈ trace (submitQuote host storage server rfqId price delivery answer) ↔
  ∃ request,
    Fetch request ∈ trace (submitQuote host storage server rfqId price delivery answer) ∧
    failure server request = None.
Proof.
  destruct (Answer_truthy price) eqn:Hp; cycle 1.
  { rewrite submitQuote_held_back by auto. simpl.
    split; [intros H | intros (r & H & _)]; by apply elem_of_nil in H. }
  destruct (Answer_truthy delivery) eqn:Hd; cycle 1.
  { rewrite submitQuote_held_back by auto. simpl.
    split; [intros H | intros (r & H & _)]; by apply elem_of_nil in H. }
  apply Answer_truthy_Some in Hp as (p & -> & Hp), Hd as (d & -> & Hd).
  destruct (submitQuote_issued host storage server rfqId p d answer Hp Hd)
    as (request & _ & _ & _ & Ht).
  rewrite Ht. split.
  - intros Hin. exists request. split; [left|].
    destruct (failure server request); [|done]. list_mem; discriminate.
  - intros (request' & Hin & Hok).
    apply elem_of_cons in Hin as [[= ->]|Hin].
    + rewrite Hok. is_mem.
    + destruct (failure server request); list_mem; discriminate.
Qed.

Lemma message_or_empty_default answer : message_or_empty answer = default "" answer.
Proof.
  unfold message_or_empty, Answer_truthy. destruct answer as [m|]; [|done].
  simpl. destruct (String.eqb_spec m ""); simpl; congruence.
Qed.

Lemma membership_4 (k a b c d : string) :
  k ∉ [a; b; c; d] → k ≠ a ∧ k ≠ b ∧ k ≠ c ∧ k ≠ d.
Proof. intros H. repeat split; intros ->; apply H; is_mem. Qed.

(** ** The sign of what the conversions return *)

(** Rounding keeps the sign it is given. *)
Lemma binary_round_aux_sign s m e l :
  match binary_round_aux prec emax s m e l with
  | S754_zero s' | S754_infinity s' | S754_finite s' _ _ => s' = s
  | S754_nan => True
  end.
Proof.
  unfold binary_round_aux.
  destruct (shr_fexp prec emax m e l) as [mrs' e'].
  match goal with |- context [shr_fexp ?p ?x ?a ?b ?c] =>
    destruct (shr_fexp p x a b c) as [mrs'' e''] end.
  destruct (shr_m mrs''); [done| |done]. by destruct (_ <=? _)%Z.
Qed.

Lemma binary_round_sign s m e :
  match binary_round prec emax s m e with
  | S754_zero s' | S754_infinity s' | S754_finite s' _ _ => s' = s
  | S754_nan => True
  end.
Proof.
  unfold binary_round. destruct (shl_align _ _ _) as [mz ez].
  apply binary_round_aux_sign.
Qed.

Lemma Number_of_decimal_sign s m e :
  match Number_of_decimal s m e with
  | S754_zero s' | S754_infinity s' | S754_finite s' _ _ => s' = s
  | S754_nan => True
  end.
Proof.
  unfold Number_of_decimal. destruct m as [|p]; [done|].
  destruct (0 <=? e)%Z; [apply binary_round_sign|].
  destruct (SFdiv_core_binary prec emax (Zpos p) 0 (10 ^ (- e)) 0) as [[mz ez] lz].
  apply binary_round_aux_sign.
Qed.

Lemma strip_sign_negative s s1 : strip_sign s = (true, s1) → s = "-"%char :: s1.
Proof.
  destruct s as [|[[] [] [] [] [] [] [] []] s']; simpl; intros [= <-]; done.
Qed.

Lemma trimStart_snoc s c :
  isWhiteSpace c = false → trimStart (s ++ [c])%list = (trimStart s ++ [c])%list.
Proof.
  intros Hc. induction s as [|a s IH]; simpl; [by rewrite Hc|].
  by destruct (isWhiteSpace a).
Qed.

(** A text that starts with a minus sign, after leading blanks, is not
    greater than zero. *)
Lemma String_gt_zero_negative q s1 :
  trimStart (list_ascii_of_string q) = "-"%char :: s1 → String_gt_zero q = false.
Proof.
  intros Hq. unfold String_gt_zero, StringToNumber, trim, trimEnd.
  rewrite Hq. cbn [rev]. rewrite trimStart_snoc by done.
  rewrite rev_app_distr. cbn [rev app].
  set (t := rev (trimStart (rev s1))).
  change (parse_NonDecimalIntegerLiteral ("-"%char :: t)) with (@None Number).
  unfold parse_StrDecimalLiteral. cbn [strip_sign].
  destruct (strip_prefix _ t) as [rest|].
  { by destruct rest. }
  destruct (parse_decimal_digits t) as [[[m e] rest]|]; [|done].
  destruct rest; [|done].
  pose proof (Number_of_decimal_sign true m e) as Hs.
  destruct (Number_of_decimal true m e) as [[]|[]| |[] ? ?]; done.
Qed.

(** So when the guard of [createRFQ] passes, [parseInt] of the answer is not
    the negative zero. *)
Lemma guard_excludes_negative_zero q :
  String_gt_zero q = true → parseInt q ≠ S754_zero true.
Proof.
  intros Hgt Hzero. unfold parseInt in Hzero.
  destruct (strip_sign (trimStart (list_ascii_of_string q))) as [[|] s1] eqn:Hs.
  { apply strip_sign_negative in Hs.
    rewrite (String_gt_zero_negative q s1 Hs) in Hgt. discriminate. }
  match type of Hzero with (let '(radix, s2) := ?x in _) = _ =>
    destruct x as [radix s2] end.
  destruct (span_digits radix s2) as [[|d ds] rest]; [discriminate|].
  destruct (digits_value radix (d :: ds)) as [|p]; [discriminate|].
  pose proof (binary_round_sign false p 0) as Hsign.
  rewrite Hzero in Hsign. discriminate.
Qed.

(** X19.  The body of an RFQ request has four properties and no others: the
    product's id as JSON (left out when the product has none), the message
    typed, or the empty string when the prompt was dismissed or left empty,
    [expires_in_days], and [parseInt] of the quantity typed, which is sent as
    [null] when that is not a finite number (as for the answer [".5"]). *)
Theorem createRFQ_body_shape host storage server productId quantity answer request :
  Fetch request ∈ trace (createRFQ host storage server productId quantity answer) →
  ∃ q fields,
    quantity = Some q ∧ body request = Some (VObj fields) ∧
    fields !! "product_id" = JSON_stringify productId ∧
    fields !! "quantity"
      = Some (if Number_finite (parseInt q) then VNum (parseInt q) else VNull) ∧
    fields !! "message" = Some (VStr (default "" answer)) ∧
    ∀ k, k ∉ ["product_id"; "quantity"; "message"; "expires_in_days"] →
         fields !! k = None.
Proof.
  intros Hin.
  destruct (createRFQ_needs_positive_answer _ _ _ _ _ _ _ Hin) as (q & -> & Hq & Hgt).
  destruct (createRFQ_issued host storage server productId q answer Hq Hgt)
    as (request' & _ & _ & Hb & Ht).
  rewrite Ht in Hin. list_mem. rewrite Hb, message_or_empty_default.
  exists q. eexists. split; [done|]. split; [reflexivity|].
  rewrite !lookup_omap. split; [reflexivity|]. split.
  { pose proof (guard_excludes_negative_zero q Hgt) as Hzero.
    rewrite lookup_insert_ne by done. rewrite lookup_insert_eq. simpl.
    by destruct (parseInt q) as [[]| | |]. }
  split; [reflexivity|].
  intros k (? & ? & ? & ?)%membership_4. rewrite lookup_omap.
  rewrite !lookup_insert_ne by done. by rewrite lookup_singleton_ne.
Qed.

Lemma createRFQ_body_shape_witness :
  let request :=
    {| url := "http://localhost:8001/api/rfqs"; method := "POST";
       headers := {[ "Content-Type" := "application/json" ]};
       body := JSON_stringify (createRFQ_body (VStr "p1") ".5" "") |} in
  Fetch request
    ∈ trace (createRFQ Sample.host ∅ Sample.accepting (VStr "p1") (Some ".5") None) ∧
  ∃ q fields,
    Some ".5" = Some q ∧ body request = Some (VObj fields) ∧
    fields !! "product_id" = JSON_stringify (VStr "p1") ∧
    fields !! "quantity"
      = Some (if Number_finite (parseInt q) then VNum (parseInt q) else VNull) ∧
    fields !! "message" = Some (VStr (default "" None)) ∧
    ∀ k, k ∉ ["product_id"; "quantity"; "message"; "expires_in_days"] →
         fields !! k = None.
Proof.
  intros request.
  assert (Hin : Fetch request ∈ trace (createRFQ Sample.host ∅ Sample.accepting
                                         (VStr "p1") (Some ".5") None)).
  { vm_compute. left. }
  split; [exact Hin|].
  exact (createRFQ_body_shape Sample.host ∅ Sample.accepting (VStr "p1") (Some ".5")
           None request Hin).
Defined.

(** X20.  The body of a quote request has four properties and no others:
    the RFQ's id as JSON, the delivery time and the message as typed (the
    message empty when its prompt was dismissed), and [parseFloat] of the
    price typed, which is sent as [null] when that is not a finite number
    and as [0] when it is a zero of either sign (as for the price ["-0"]). *)
Theorem submitQuote_body_shape
    host storage server rfqId price delivery answer request :
  Fetch request ∈ trace (submitQuote host storage server rfqId price delivery answer) →
  ∃ p d fields,
    price = Some p ∧ delivery = Some d ∧ body request = Some (VObj fields) ∧
    fields !! "rfq_id" = JSON_stringify rfqId ∧
    fields !! "price_per_unit"
      = Some (match parseFloat p with
              | S754_zero _ => zero
              | S754_finite _ _ _ => VNum (parseFloat p)
              | S754_infinity _ | S754_nan => VNull
              end) ∧
    fields !! "delivery_time" = Some (VStr d) ∧
    fields !! "message" = Some (VStr (default "" answer)) ∧
    ∀ k, k ∉ ["rfq_id"; "price_per_unit"; "delivery_time"; "message"] →
         fields !! k = None.
Proof.
  intros Hin.
  destruct (Answer_truthy price) eqn:Hp; cycle 1.
  { rewrite submitQuote_held_back in Hin by auto. by apply elem_of_nil in Hin. }
  destruct (Answer_truthy delivery) eqn:Hd; cycle 1.
  { rewrite submitQuote_held_back in Hin by auto. by apply elem_of_nil in Hin. }
  apply Answer_truthy_Some in Hp as (p & -> & Hp), Hd as (d & -> & Hd).
  destruct (submitQuote_issued host storage server rfqId p d answer Hp Hd)
    as (request' & _ & _ & Hb & Ht).
  rewrite Ht in Hin. apply elem_of_cons in Hin as [[= ->]|Hin]; cycle 1.
  { destruct (failure server request'); list_mem; discriminate. }
  rewrite Hb, message_or_empty_default.
  exists p, d. eexists. split; [done|]. split; [done|]. split; [reflexivity|].
  rewrite !lookup_omap. split; [reflexivity|]. split; [reflexivity|].
  split; [reflexivity|]. split; [reflexivity|].
  intros k (? & ? & ? & ?)%membership_4. rewrite lookup_omap.
  rewrite !lookup_insert_ne by done. by rewrite lookup_singleton_ne.
Qed.

Lemma submitQuote_body_shape_witness :
  let request :=
    {| url := "http://localhost:8001/api/quotes"; method := "POST";
       headers := {[ "Content-Type" := "application/json" ]};
       body := JSON_stringify (submitQuote_body (VStr "r1") "-0" "3 days" "") |} in
  Fetch request
    ∈ trace (submitQuote Sample.host ∅ Sample.accepting (VStr "r1") (Some "-0")
               (Some "3 days") None) ∧
  parseFloat "-0" = S754_zero true ∧
  ∃ fields, body request = Some (VObj fields) ∧
            fields !! "price_per_unit" = Some zero.
Proof.
  intros request.
  assert (Hin : Fetch request
                  ∈ trace (submitQuote Sample.host ∅ Sample.accepting (VStr "r1")
                             (Some "-0") (Some "3 days") None)).
  { vm_compute. left. }
  split; [exact Hin|]. split; [reflexivity|].
  destruct (submitQuote_body_shape Sample.host ∅ Sample.accepting (VStr "r1")
              (Some "-0") (Some "3 days") None request Hin)
    as (p & d & fields & [= <-] & _ & Hb & _ & Hprice & _).
  exists fields. split; [exact Hb | exact Hprice].
Defined.

(** ** Submitting the forms *)

(** X21.  Registration is confirmed on any ok response, whatever its body:
    the form gives way to the confirmation, whose only action is the button
    that reloads the page. *)
Theorem registration_confirmed_on_ok host server formData success response :
  let request :=
    {| url := API host ++ "/register"; method := "POST";
       headers := {[ "Content-Type" := "application/json" ]};
       body := JSON_stringify (FormData_json formData) |} in
  server request = Resolved response → ok response = true →
  RegisterForm_handleSubmit host server formData success
    = ((VStr "", true, false), [Fetch request]) ∧
  ∀ a, fires (RegisterForm formData (VStr "") true false) a ↔ a = ReloadPage.
Proof.
  intros request Hanswer Hok. split.
  - unfold RegisterForm_handleSubmit, register. cbv zeta. fold request.
    rewrite Hanswer, Hok. reflexivity.
  - intros a. unfold RegisterForm. split; [intros Hf; by fired | intros ->; fire].
Qed.

Lemma registration_confirmed_on_ok_witness :
  let response := {| ok := true; statusText := "OK"; json := inr (VObj ∅) |} in
  Sample.accepting
    {| url := API Sample.host ++ "/register"; method := "POST";
       headers := {[ "Content-Type" := "application/json" ]};
       body := JSON_stringify (FormData_json RegisterForm_initial) |}
    = Resolved response ∧
  ok response = true ∧
  (RegisterForm_handleSubmit Sample.host Sample.accepting RegisterForm_initial false).1
    = (VStr "", true, false).
Proof.
  intros response. split; [reflexivity|]. split; [reflexivity|].
  exact (f_equal fst
           (proj1 (registration_confirmed_on_ok Sample.host Sample.accepting
                     RegisterForm_initial false response eq_refl eq_refl))).
Defined.

(** X22.  A submission whose request the network rejects leaves the form
    waiting: [login] and [register] throw, nothing catches it, so [loading]
    stays set with no error shown, the provider's state and storage are
    untouched, and the login form keeps its button disabled. *)
Theorem rejected_submit_leaves_form_waiting
    host server email password st storage formData success :
  (∀ request, ∃ e, server request = Rejected e) →
  (∃ t, LoginForm_handleSubmit host server email password st storage
        = ((VStr "", true), st, storage, t)) ∧
  (∃ t, RegisterForm_handleSubmit host server formData success
        = ((VStr "", success, true), t)) ∧
  contains (LoginForm email password (VStr "") true)
    (SubmitButton true [Expr (VStr "Signing in...")]).
Proof.
  intros Hrejects. split; [|split].
  - unfold LoginForm_handleSubmit, login. cbv zeta.
    match goal with |- context [server ?r] => destruct (Hrejects r) as [e ->] end.
    eauto.
  - unfold RegisterForm_handleSubmit, register. cbv zeta.
    match goal with |- context [server ?r] => destruct (Hrejects r) as [e ->] end.
    run_cmd. eauto.
  - unfold LoginForm, And. fire.
Qed.

Lemma rejected_submit_leaves_form_waiting_witness :
  let server : Server :=
    fun _ => Rejected {| name := "TypeError"; message := "Failed to fetch" |} in
  let st := AuthProvider_mount ∅ in
  (∀ request, ∃ e, server request = Rejected e) ∧
  ∃ t, LoginForm_handleSubmit Sample.host server "jo@acme.test" "secret" st ∅
       = ((VStr "", true), st, ∅, t).
Proof.
  intros server st.
  assert (H : ∀ request, ∃ e, server request = Rejected e) by (intros; eexists; reflexivity).
  split; [exact H|].
  exact (proj1 (rejected_submit_leaves_form_waiting Sample.host server "jo@acme.test"
                  "secret" st ∅ RegisterForm_initial false H)).
Defined.

(** X23.  A refused login hands the form what the server said: on a
    response that is not ok, the [detail] of its body becomes the form's
    error, loading ends, and the provider's state and storage are untouched.
    A truthy detail is put into the form as it is, so React displays the
    form exactly when the detail can be shown: a message in a string is
    displayed, while a detail that is an object, or a list of objects as a
    validation error carries, takes the page down. *)
Theorem refused_login_shows_detail
    host server email password st storage response data detail :
  let request :=
    {| url := API host ++ "/login"; method := "POST";
       headers := {[ "Content-Type" := "application/json" ]};
       body := JSON_stringify
                 (VObj {[ "email" := VStr email; "password" := VStr password ]}) |} in
  server request = Resolved response → ok response = false →
  json response = inr data → Get data "detail" = Some detail →
  LoginForm_handleSubmit host server email password st storage
    = ((detail, false), st, storage, [Fetch request]) ∧
  (ToBoolean detail = true →
   contains (LoginForm email password detail false) (El "div" [Expr detail])) ∧
  displays (LoginForm email password detail false) = valid_child detail.
Proof.
  intros request Hanswer Hok Hjson Hdetail. split; [|split].
  - unfold LoginForm_handleSubmit, login. cbv zeta. fold request.
    rewrite Hanswer, Hok, Hjson, Hdetail. reflexivity.
  - intros Htruthy. unfold LoginForm, And. rewrite Htruthy. fire.
  - unfold LoginForm, And. destruct (ToBoolean detail) eqn:Htruthy;
      cbn [displays forallb valid_child]; by destruct (valid_child detail).
Qed.

Lemma refused_login_shows_detail_witness :
  let detail := VStr "Incorrect email or password" in
  let response := {| ok := false; statusText := "Unauthorized";
                     json := inr (VObj {[ "detail" := detail ]}) |} in
  let server : Server := fun _ => Resolved response in
  let st := AuthProvider_mount ∅ in
  (LoginForm_handleSubmit Sample.host server "jo@acme.test" "guess" st ∅).1
    = ((detail, false), st, ∅) ∧
  contains (LoginForm "jo@acme.test" "guess" detail false) (El "div" [Expr detail]) ∧
  displays (LoginForm "jo@acme.test" "guess" detail false) = true ∧
  displays (LoginForm "jo@acme.test" "guess" Sample.validation_detail false) = false.
Proof.
  intros detail response server st.
  destruct (refused_login_shows_detail Sample.host server "jo@acme.test" "guess" st ∅
              response (VObj {[ "detail" := detail ]}) detail
              eq_refl eq_refl eq_refl eq_refl) as (Hsubmit & Hshown & Hdisplayed).
  split; [exact (f_equal fst Hsubmit)|]. split; [exact (Hshown eq_refl)|].
  split; [exact Hdisplayed | reflexivity].
Defined.

(** Take an occurrence in a form apart, down to the control that occurs. *)
Ltac control :=
  repeat match goal with
  | H : contains (Text _) _ |- _ => inversion H; subst; clear H
  | H : contains (Expr _) _ |- _ => inversion H; subst; clear H
  | H : contains (Input _ _ _ _) _ |- _ => inversion H; subst; clear H
  | H : contains (Select _ _ _) _ |- _ => inversion H; subst; clear H
  | H : contains (SubmitButton _ _) _ |- _ => inversion H; subst; clear H
  | H : contains (Form _ _) _ |- _ => inversion H; subst; clear H
  | H : contains (El _ _) _ |- _ => inversion H; subst; clear H
  | H : _ ∈ [] |- _ => by apply elem_of_nil in H
  | H : _ ∈ _ :: _ |- _ => apply elem_of_cons in H as [->|H]
  end.

(** X24.  Each control of the registration form changes its own field and
    no other.  The form has five inputs, told apart by their placeholders,
    and one selector.  Each input shows one field of [formData], and typing
    into it replaces that same field with the text typed, the other five
    staying as they are; the selector shows the role, offers ['buyer'] and
    ['supplier'], and replaces the role with the option chosen. *)
Theorem RegisterForm_controls_change_one_field formData error loading :
  let form := RegisterForm formData error false loading in
  (∀ type placeholder value onChange,
     contains form (Input type placeholder value onChange) →
     ∃ get set,
       (placeholder, get, set)
         ∈ [("Email address", email, with_email);
            ("Password", password, with_password);
            ("Company Name", company_name, with_company_name);
            ("Contact Person", contact_person, with_contact_person);
            ("Phone Number", phone, with_phone)] ∧
       value = get formData ∧
       ∀ typed, onChange typed = SetFormData (set typed formData)) ∧
  (∀ placeholder,
     placeholder ∈ ["Email address"; "Password"; "Company Name"; "Contact Person";
                    "Phone Number"] →
     ∃ type value onChange, contains form (Input type placeholder value onChange)) ∧
  (∀ value options onChange,
     contains form (Select value options onChange) →
     value = role formData ∧ options.*1 = ["buyer"; "supplier"] ∧
     ∀ chosen, onChange chosen = SetFormData (with_role chosen formData)) ∧
  (∃ value options onChange, contains form (Select value options onChange)) ∧
  ∀ v,
    (email (with_email v formData) = v ∧
     ∀ get, get ∈ [password; company_name; contact_person; phone; role] →
            get (with_email v formData) = get formData) ∧
    (password (with_password v formData) = v ∧
     ∀ get, get ∈ [email; company_name; contact_person; phone; role] →
            get (with_password v formData) = get formData) ∧
    (company_name (with_company_name v formData) = v ∧
     ∀ get, get ∈ [email; password; contact_person; phone; role] →
            get (with_company_name v formData) = get formData) ∧
    (contact_person (with_contact_person v formData) = v ∧
     ∀ get, get ∈ [email; password; company_name; phone; role] →
            get (with_contact_person v formData) = get formData) ∧
    (phone (with_phone v formData) = v ∧
     ∀ get, get ∈ [email; password; company_name; contact_person; role] →
            get (with_phone v formData) = get formData) ∧
    (role (with_role v formData) = v ∧
     ∀ get, get ∈ [email; password; company_name; contact_person; phone] →
            get (with_role v formData) = get formData).
Proof.
  intros form. subst form. split; [|split; [|split; [|split]]].
  - intros type placeholder value onChange H. unfold RegisterForm, And in H.
    destruct (ToBoolean error); control;
      (eexists _, _; split; [is_mem|]; split; [reflexivity|]; intros; reflexivity).
  - intros placeholder H. unfold RegisterForm.
    repeat (apply elem_of_cons in H as [->|H]); [..|by apply elem_of_nil in H];
      eexists _, _, _; fire.
  - intros value options onChange H. unfold RegisterForm, And in H.
    destruct (ToBoolean error); control; done.
  - unfold RegisterForm. eexists _, _, _. fire.
  - intros v. repeat split; intros get H;
      repeat (apply elem_of_cons in H as [->|H]); try reflexivity;
      by apply elem_of_nil in H.
Qed.

(** ** Whole quantities *)

Lemma digits2_pos_shift p k :
  digits2_pos (Pos.iter xO p k) = (digits2_pos p + k)%positive.
Proof.
  induction k using Pos.peano_ind.
  - simpl. lia.
  - rewrite Pos.iter_succ. simpl. rewrite IHk. lia.
Qed.

Lemma digits2_pos_bound p : (Zpos p < 2 ^ 53)%Z → (Zpos (digits2_pos p) <= 53)%Z.
Proof.
  intros Hp.
  assert (Hsize : ∀ q, digits2_pos q = Pos.size q).
  { induction q as [q IH|q IH|]; simpl; rewrite ?IH; reflexivity. }
  rewrite Hsize.
  pose proof (Pos.size_le p) as Hle.
  destruct (Z.le_gt_cases (Zpos (Pos.size p)) 53) as [|Hgt]; [done|]. exfalso.
  assert (2 ^ 54 <= 2 ^ Zpos (Pos.size p))%Z by (apply Z.pow_le_mono_r; lia).
  assert (Zpos (2 ^ Pos.size p) = 2 ^ Zpos (Pos.size p))%Z by (by rewrite Pos2Z.inj_pow).
  assert (2 ^ 54 = 2 * 2 ^ 53)%Z by reflexivity.
  lia.
Qed.

Lemma binary_round_aux_canonical s m e :
  fexp prec emax (Zpos (digits2_pos m) + e) = e → (e <= emax - prec)%Z →
  binary_round_aux prec emax s (Zpos m) e loc_Exact = S754_finite s m e.
Proof.
  intros Hcanon Hle. unfold binary_round_aux, shr_fexp.
  cbn [Zdigits2 shr_record_of_loc]. rewrite Hcanon, Z.sub_diag.
  cbn [shr shr_m loc_of_shr_record round_nearest_even Zdigits2 shr_record_of_loc].
  rewrite Hcanon, Z.sub_diag. cbn [shr shr_m].
  apply Z.leb_le in Hle. by rewrite Hle.
Qed.

Lemma iter_xO_pow p k : Zpos (Pos.iter xO p k) = (Zpos p * 2 ^ Zpos k)%Z.
Proof.
  induction k using Pos.peano_ind.
  - simpl. lia.
  - rewrite Pos.iter_succ, Pos2Z.inj_xO, IHk, Pos2Z.inj_succ, Z.pow_succ_r by lia. lia.
Qed.

(** A positive integer below [2^53] is a Number as it stands: rounding
    changes nothing, and the result is finite, with the integer's value. *)
Lemma binary_round_small s p :
  (Zpos p < 2 ^ 53)%Z →
  ∃ m e, binary_round prec emax s p 0 = S754_finite s m e ∧
         (e <= 0)%Z ∧ Zpos m = (Zpos p * 2 ^ (- e))%Z.
Proof.
  intros Hp%digits2_pos_bound.
  unfold binary_round, shl_align.
  assert (Hfexp : fexp prec emax (Zpos (digits2_pos p) + 0) = (Zpos (digits2_pos p) - 53)%Z).
  { unfold fexp, emin, prec, emax. lia. }
  rewrite Hfexp.
  destruct (Zpos (digits2_pos p) - 53 - 0)%Z as [|k|k] eqn:Hk; [|lia|].
  - exists p, 0%Z. split; [|split; [reflexivity|simpl; lia]].
    apply binary_round_aux_canonical.
    + rewrite Hfexp. lia.
    + unfold prec, emax. lia.
  - exists (Pos.iter xO p k), (Zpos (digits2_pos p) - 53)%Z. split; [|split; [lia|]].
    + apply binary_round_aux_canonical.
      * rewrite digits2_pos_shift. unfold fexp, emin, prec, emax. lia.
      * unfold prec, emax. lia.
    + rewrite iter_xO_pow. f_equal. f_equal. lia.
Qed.

Lemma span_digits_numeral d : span_digits 10 (uint_chars d) = (uint_digits d, []).
Proof. unfold uint_chars. induction d; simpl; [done|..]; by rewrite IHd. Qed.

Lemma digits_value_acc d acc :
  fold_left (fun a x => (a * 10 + x)%N) (uint_digits d) (Npos acc)
  = Npos (Pos.of_uint_acc d acc).
Proof.
  revert acc. induction d; intros acc; simpl; [done|..];
    (etransitivity; [|apply IHd]); f_equal; lia.
Qed.

Lemma digits_value_numeral d : digits_value 10 (uint_digits d) = N.of_uint d.
Proof.
  unfold digits_value, N.of_uint.
  induction d; simpl; [done|exact IHd|..]; apply digits_value_acc.
Qed.

Lemma numeral_no_space d : Forall (fun c => isWhiteSpace c = false) (uint_chars d).
Proof. unfold uint_chars. induction d; simpl; constructor; done. Qed.

Lemma trimStart_no_space s : Forall (fun c => isWhiteSpace c = false) s → trimStart s = s.
Proof. destruct 1 as [|c s Hc _]; simpl; [done|]. by rewrite Hc. Qed.

Lemma trim_no_space s : Forall (fun c => isWhiteSpace c = false) s → trim s = s.
Proof.
  intros H. unfold trim, trimEnd. rewrite (trimStart_no_space s H).
  rewrite trimStart_no_space by by apply Forall_rev. apply rev_involutive.
Qed.

Lemma numeral_unsigned d : strip_sign (uint_chars d) = (false, uint_chars d).
Proof. by destruct d. Qed.

Lemma numeral_not_Infinity d :
  d ≠ Decimal.Nil →
  strip_prefix (list_ascii_of_string "Infinity") (uint_chars d) = None.
Proof. by destruct d. Qed.

Lemma numeral_not_prefixed d : parse_NonDecimalIntegerLiteral (uint_chars d) = None.
Proof. destruct d as [|d| | | | | | | | |]; try done. by destruct d. Qed.

Lemma numeral_radix d :
  match uint_chars d with
  | "0"%char :: c :: rest =>
      if is_char c "x" "X" then (16%N, rest) else (10%N, uint_chars d)
  | _ => (10%N, uint_chars d)
  end = (10%N, uint_chars d).
Proof. destruct d as [|d| | | | | | | | |]; try done. by destruct d. Qed.

(** What the conversions make of the decimal numeral of a positive [n]:
    the Number nearest to [n], from both. *)
Lemma conversions_of_numeral p :
  parseInt (decimal (Npos p)) = Number_of_Z (Zpos p) ∧
  StringToNumber (decimal (Npos p)) = Number_of_Z (Zpos p) ∧
  decimal (Npos p) ≠ "".
Proof.
  unfold decimal. set (d := N.to_uint (Npos p)).
  assert (Hd : d ≠ Decimal.Nil) by apply Unsigned.to_uint_nonnil.
  assert (Hvalue : digits_value 10 (uint_digits d) = Npos p).
  { rewrite digits_value_numeral. apply DecimalN.Unsigned.of_to. }
  assert (Hdigits : uint_digits d ≠ []) by (by destruct d).
  split; [|split].
  - unfold parseInt. fold (uint_chars d).
    rewrite (trimStart_no_space _ (numeral_no_space d)), numeral_unsigned.
    rewrite numeral_radix, span_digits_numeral, Hvalue.
    by destruct (uint_digits d).
  - unfold StringToNumber. fold (uint_chars d).
    rewrite (trim_no_space _ (numeral_no_space d)).
    destruct (uint_chars d) as [|c s] eqn:Hc; [by destruct d|]. rewrite <- Hc.
    rewrite numeral_not_prefixed.
    unfold parse_StrDecimalLiteral, parse_decimal_digits.
    rewrite numeral_unsigned, numeral_not_Infinity by done.
    rewrite span_digits_numeral, Hvalue.
    destruct (uint_digits d); [done|].
    unfold Number_of_decimal. simpl. by rewrite Pos.mul_1_r.
  - by destruct d.
Qed.

(** X25.  A whole quantity goes through unchanged.  When the user answers
    the prompt with the decimal numeral of an integer [n] with
    [0 < n < 2^53], [createRFQ] sends its request, and the quantity in the
    body is the Number [n] itself: finite, positive and exact. *)
Theorem createRFQ_sends_the_quantity_typed host storage server productId n answer :
  (0 < n < 2 ^ 53)%N →
  ∃ request fields m e,
    Fetch request
      ∈ trace (createRFQ host storage server productId (Some (decimal n)) answer) ∧
    body request = Some (VObj fields) ∧
    fields !! "quantity" = Some (VNum (S754_finite false m e)) ∧
    (e <= 0)%Z ∧ (Zpos m = Z.of_N n * 2 ^ (- e))%Z.
Proof.
  intros [Hpos Hsmall]. destruct n as [|p]; [lia|].
  destruct (conversions_of_numeral p) as (Hint & Hnum & Hne).
  destruct (binary_round_small false p) as (m & e & Hround & He & Hm); [lia|].
  change (binary_round prec emax false p 0) with (Number_of_Z (Zpos p)) in Hround.
  assert (Hgt : String_gt_zero (decimal (Npos p)) = true).
  { unfold String_gt_zero. by rewrite Hnum, Hround. }
  destruct (createRFQ_issued host storage server productId (decimal (Npos p)) answer
              Hne Hgt) as (request & _ & _ & Hb & Ht).
  exists request. eexists. exists m, e.
  split; [rewrite Ht; left|]. rewrite Hb. split; [reflexivity|].
  split; [|done]. rewrite lookup_omap.
  rewrite lookup_insert_ne by done. rewrite lookup_insert_eq. simpl.
  by rewrite Hint, Hround.
Qed.

Lemma createRFQ_sends_the_quantity_typed_witness :
  (0 < 250 < 2 ^ 53)%N ∧
  ∃ request fields m e,
    Fetch request
      ∈ trace (createRFQ Sample.host ∅ Sample.accepting (VStr "p1")
                 (Some (decimal 250)) None) ∧
    body request = Some (VObj fields) ∧
    fields !! "quantity" = Some (VNum (S754_finite false m e)) ∧
    (e <= 0)%Z ∧ (Zpos m = Z.of_N 250 * 2 ^ (- e))%Z.
Proof.
  assert (H : (0 < 250 < 2 ^ 53)%N) by (split; reflexivity).
  split; [exact H|].
  exact (createRFQ_sends_the_quantity_typed Sample.host ∅ Sample.accepting
           (VStr "p1") 250 None H).
Defined.
